(** * kitty-js: the breed lookups and the random image of [src/index.ts]

    Every exported function of [src/index.ts] issues one [axios.get] and
    reads a property off the parsed body.  TypeScript's annotations are
    erased at run time, so the body is modelled as an untyped JavaScript
    value and the property reads, the truthiness test and the template
    literals follow ECMAScript. *)

From Stdlib Require Import Floats.PrimFloat Floats.SpecFloat Floats.FloatOps.
From stdpp Require Import gmap strings list fin_maps pretty.

Local Set Warnings "-register-all,-inexact-float".
Local Open Scope string_scope.

(** ** JavaScript values

    What [res.data] can hold: the JSON values, and [undefined], which is what
    reading past the end of an array or a missing property gives.  Numbers are
    binary64 floats, as in the language; an object is its own string-keyed
    properties. *)

Inductive value : Type :=
  | JUndefined
  | JNull
  | JBool (b : bool)
  | JNumber (x : float)
  | JString (s : string)
  | JArray (elems : list value)
  | JObject (props : gmap string value).

(** What can be thrown, or be the reason a promise is rejected with:
    [new Error(message)], the engine's [TypeError] (its message differs from
    engine to engine and is left out), and the error axios rejects with. *)
Inductive exn : Type :=
  | Error (message : string)
  | TypeError
  | AxiosError (message : string).

(** How a computation ends.  For a promise [Fulfilled] and [Rejected] are its
    two settled states; for the body of a handler they are [return] and
    [throw], which is also how [then] settles the promise it returns. *)
Inductive outcome (A : Type) : Type :=
  | Fulfilled (a : A)
  | Rejected (e : exn).
Arguments Fulfilled {A} a.
Arguments Rejected {A} e.

#[global] Instance outcome_ret : MRet outcome := @Fulfilled.
#[global] Instance outcome_bind : MBind outcome := fun A B f o =>
  match o with
  | Fulfilled a => f a
  | Rejected e => Rejected e
  end.

(** [ToBoolean] (ECMAScript 7.1.2), the test of [if (res.data[0])]. *)
Definition ToBoolean (v : value) : bool :=
  match v with
  | JUndefined | JNull => false
  | JBool b => b
  | JNumber x => negb (PrimFloat.is_zero x || PrimFloat.is_nan x)
  | JString s => negb (String.eqb s "")
  | JArray _ | JObject _ => true
  end.

(** The first UTF-16 code unit of a text, as a text.  Texts are held in
    UTF-8.  A character of one, two or three bytes is one code unit and is
    kept whole.  A character of four bytes is two code units, and the first
    of them, a high surrogate, is written in the three bytes generalized
    UTF-8 gives it. *)
Definition first_code_unit (s : string) : string :=
  match s with
  | "" => ""
  | String b0 rest =>
      let n0 := Ascii.N_of_ascii b0 in
      if (n0 <? 192)%N then String b0 ""
      else if (n0 <? 224)%N then
        match rest with
        | String b1 _ => String b0 (String b1 "")
        | "" => String b0 ""
        end
      else if (n0 <? 240)%N then
        match rest with
        | String b1 (String b2 _) => String b0 (String b1 (String b2 ""))
        | _ => String b0 ""
        end
      else
        match rest with
        | String b1 (String b2 _) =>
            let code_point :=
              ((n0 mod 8) * 262144
               + (Ascii.N_of_ascii b1 mod 64) * 4096
               + (Ascii.N_of_ascii b2 mod 64) * 64)%N in
            let surrogate := (55296 + (code_point - 65536) / 1024)%N in
            String (Ascii.ascii_of_N 237)
              (String (Ascii.ascii_of_N (128 + (surrogate / 64) mod 64))
                 (String (Ascii.ascii_of_N (128 + surrogate mod 64)) ""))
        | _ => String b0 ""
        end
  end.

(** [v[0]].  Reading a property of [undefined] or [null] throws; an array
    gives its first element, a text its first code unit, an object its
    property ["0"]; whatever is not there is [undefined]. *)
Definition index0 (v : value) : outcome value :=
  match v with
  | JUndefined | JNull => Rejected TypeError
  | JArray elems => Fulfilled (default JUndefined (elems !! 0%nat))
  | JString (String c rest) => Fulfilled (JString (first_code_unit (String c rest)))
  | JObject props => Fulfilled (default JUndefined (props !! "0"))
  | JString "" | JBool _ | JNumber _ => Fulfilled JUndefined
  end.

(** The property names [src/index.ts] reads with a dot.  None of them is a
    property of [Object.prototype], [Array.prototype], [String.prototype],
    [Number.prototype] or [Boolean.prototype], so on the values above only an
    object's own property can answer them. *)
Inductive field : Type :=
  | f_url
  | f_description
  | f_reference_image_id
  | f_child_friendly
  | f_life_span
  | f_temperament
  | f_intelligence
  | f_affection_level.

Definition field_name (f : field) : string :=
  match f with
  | f_url => "url"
  | f_description => "description"
  | f_reference_image_id => "reference_image_id"
  | f_child_friendly => "child_friendly"
  | f_life_span => "life_span"
  | f_temperament => "temperament"
  | f_intelligence => "intelligence"
  | f_affection_level => "affection_level"
  end.

(** The value of [v.f] when the read does not throw. *)
Definition project (f : field) (v : value) : value :=
  match v with
  | JObject props => default JUndefined (props !! field_name f)
  | _ => JUndefined
  end.

(** [v.f]: throws on [undefined] and [null]. *)
Definition GetField (v : value) (f : field) : outcome value :=
  match v with
  | JUndefined | JNull => Rejected TypeError
  | _ => Fulfilled (project f v)
  end.

(** ** Requests and the world around the program *)

Record AxiosRequestConfig : Type := { headers : gmap string string }.

(** One call [axios.get(url, config)]; [config] is [None] when the call has
    no second argument. *)
Record Request : Type := { url : string; config : option AxiosRequestConfig }.

(** Of the response object the program reads [data] only. *)
Record AxiosResponse : Type := { data : value }.

(** The header a request carries under a name, if any. *)
Definition req_header (r : Request) (name : string) : option string :=
  c ← config r; headers c !! name.

(** The world an operation runs in: how the remote service settles a request
    given the requests it has seen before, the requests sent so far (oldest
    first) and what [console.error] has written (oldest first). *)
Record World : Type := {
  remote : list Request → Request → outcome AxiosResponse;
  sent : list Request;
  console : list exn
}.

(** A computation of the program, run to its end: a promise run until it is
    settled, or a handler body run until it returns or throws. *)
Definition Js (A : Type) : Type := World → outcome A * World.

#[global] Instance Js_ret : MRet Js := fun A a w => (Fulfilled a, w).
#[global] Instance Js_bind : MBind Js := fun A B f p w =>
  match p w with
  | (Fulfilled a, w') => f a w'
  | (Rejected e, w') => (Rejected e, w')
  end.

Definition throw {A : Type} (e : exn) : Js A := fun w => (Rejected e, w).

(** A step that does not touch the world. *)
Definition pure {A : Type} (o : outcome A) : Js A := fun w => (o, w).

(** [p.then(onFulfilled)] and [p.catch(onRejected)]. *)
Definition then_ {A B : Type} (p : Js A) (onFulfilled : A → Js B) : Js B :=
  p ≫= onFulfilled.

Definition catch_ {A : Type} (p : Js A) (onRejected : exn → Js A) : Js A :=
  fun w =>
    match p w with
    | (Rejected e, w') => onRejected e w'
    | settled => settled
    end.

(** [axios.get(url, config)]: the request is recorded and the remote service
    decides how the promise settles. *)
Definition axios_get (u : string) (c : option AxiosRequestConfig) : Js AxiosResponse :=
  fun w =>
    let r := {| url := u; config := c |} in
    (remote w (sent w) r,
     {| remote := remote w; sent := sent w ++ [r]; console := console w |}).

(** [console.error(err)] writes and returns [undefined]. *)
Definition console_error (err : exn) : Js value :=
  fun w =>
    (Fulfilled JUndefined,
     {| remote := remote w; sent := sent w; console := console w ++ [err] |}).

(** What a computation settles with, and the world it leaves. *)
Definition result {A : Type} (p : Js A) (w : World) : outcome A := (p w).1.
Definition after {A : Type} (p : Js A) (w : World) : World := (p w).2.

(** ** The [Breed] interface

    The shape [src/index.ts] declares for a breed record, and the value such
    a record is at run time. *)
Module Breed.

Record weight_t : Type := { imperial : string; metric : string }.
Record image_t : Type := { url : string }.

Record t : Type := {
  weight : weight_t;
  id : string;
  name : string;
  temperament : string;
  origin : string;
  country_code : string;
  description : string;
  life_span : string;
  indoor : float;
  alt_names : string;
  adaptability : float;
  affection_level : float;
  child_friendly : float;
  dog_friendly : float;
  energy_level : float;
  grooming : float;
  health_issues : float;
  intelligence : float;
  shedding_level : float;
  social_needs : float;
  stranger_friendly : float;
  vocalisation : float;
  experimental : float;
  hairless : float;
  natural : float;
  rare : float;
  supressed_tail : float;
  short_legs : float;
  wikipedia_url : string;
  hypoallergenic : float;
  reference_image_id : string;
  image : image_t
}.

Definition to_value (b : t) : value :=
  JObject (list_to_map [
    ("weight", JObject (list_to_map [
       ("imperial", JString (imperial (weight b)));
       ("metric", JString (metric (weight b)))]));
    ("id", JString (id b));
    ("name", JString (name b));
    ("temperament", JString (temperament b));
    ("origin", JString (origin b));
    ("country_code", JString (country_code b));
    ("description", JString (description b));
    ("life_span", JString (life_span b));
    ("indoor", JNumber (indoor b));
    ("alt_names", JString (alt_names b));
    ("adaptability", JNumber (adaptability b));
    ("affection_level", JNumber (affection_level b));
    ("child_friendly", JNumber (child_friendly b));
    ("dog_friendly", JNumber (dog_friendly b));
    ("energy_level", JNumber (energy_level b));
    ("grooming", JNumber (grooming b));
    ("health_issues", JNumber (health_issues b));
    ("intelligence", JNumber (intelligence b));
    ("shedding_level", JNumber (shedding_level b));
    ("social_needs", JNumber (social_needs b));
    ("stranger_friendly", JNumber (stranger_friendly b));
    ("vocalisation", JNumber (vocalisation b));
    ("experimental", JNumber (experimental b));
    ("hairless", JNumber (hairless b));
    ("natural", JNumber (natural b));
    ("rare", JNumber (rare b));
    ("supressed_tail", JNumber (supressed_tail b));
    ("short_legs", JNumber (short_legs b));
    ("wikipedia_url", JString (wikipedia_url b));
    ("hypoallergenic", JNumber (hypoallergenic b));
    ("reference_image_id", JString (reference_image_id b));
    ("image", JObject (list_to_map [("url", JString (url (image b)))]))
  ]).

End Breed.

(** ** A service to run the operations against

    The three constants the examples are run with and the number printer of
    the engine, a world whose remote service settles every request the same
    way, and the record of the specification's end-to-end example. *)

Definition example_BASE_URL : string := "https://api.thecatapi.com/v1/".
Definition example_API_KEY : string := "k3y".
Definition example_CDN_URL : string := "https://cdn2.thecatapi.com/images/".

(** [Number::toString] (ECMAScript 6.1.6.1.20) in radix 10.  The digits are
    the shortest that read back as the same number, the closest to it when
    several are as short, found with exact integers: the number is [r / s],
    [mp / s] and [mm / s] are the distances to the midpoints with the next
    and the previous number, and a midpoint reads back as the number when its
    mantissa is even. *)
Definition reaches (inclusive : bool) (a b : Z) : bool :=
  if inclusive then (b <=? a)%Z else (b <? a)%Z.

Fixpoint shortest_scale (fuel : nat) (even : bool) (r s mp mm k : Z)
    : Z * Z * Z * Z * Z :=
  match fuel with
  | O => (r, s, mp, mm, k)
  | S fuel' =>
      if reaches even (r + mp) s then
        shortest_scale fuel' even r (s * 10) mp mm (k + 1)
      else if negb (reaches even ((r + mp) * 10) s) then
        shortest_scale fuel' even (r * 10) s (mp * 10) (mm * 10) (k - 1)
      else (r, s, mp, mm, k)
  end%Z.

Fixpoint shortest_generate (fuel : nat) (even : bool) (r s mp mm : Z) : list Z :=
  match fuel with
  | O => []
  | S fuel' =>
      let d := (r * 10 / s)%Z in
      let r' := ((r * 10) mod s)%Z in
      let mp' := (mp * 10)%Z in
      let mm' := (mm * 10)%Z in
      let low := reaches even mm' r' in
      let high := reaches even (r' + mp') s in
      match low, high with
      | false, false => d :: shortest_generate fuel' even r' s mp' mm'
      | false, true => [d + 1]
      | true, false => [d]
      | true, true => if (r' * 2 <? s)%Z then [d] else [d + 1]
      end%Z
  end.

(** The digits of [m * 2 ^ e] and the [n] with [m * 2 ^ e = 0.d1d2... * 10 ^ n]. *)
Definition shortest_digits (m : positive) (e : Z) : list Z * Z :=
  let f := Z.pos m in
  let even := Z.even f in
  let low_binade := bool_decide (f = 2 ^ 52)%Z && negb (bool_decide (e = -1074)%Z) in
  let '(r, s, mp, mm) :=
    (if bool_decide (0 ≤ e) then
       if low_binade then (f * 2 ^ (e + 1) * 2, 4, 2 ^ (e + 1), 2 ^ e)
       else (f * 2 ^ e * 2, 2, 2 ^ e, 2 ^ e)
     else
       if low_binade then (f * 4, 2 ^ (1 - e) * 2, 2, 1)
       else (f * 2, 2 ^ (- e) * 2, 1, 1))%Z in
  let '(r, s, mp, mm, k) := shortest_scale 700 even r s mp mm 0 in
  (shortest_generate 20 even r s mp mm, k).

Definition digit_string (ds : list Z) : string :=
  foldr (fun d acc => pretty d ++ acc) "" ds.

Definition zeros (n : Z) : string :=
  foldr (fun _ acc => "0" ++ acc) "" (replicate (Z.to_nat n) ()).

Definition NumberToString_finite (m : positive) (e : Z) : string :=
  let '(ds, n) := shortest_digits m e in
  let k := Z.of_nat (length ds) in
  if bool_decide (k ≤ n ≤ 21)%Z then digit_string ds ++ zeros (n - k)
  else if bool_decide (0 < n ≤ 21)%Z then
    digit_string (take (Z.to_nat n) ds) ++ "." ++ digit_string (drop (Z.to_nat n) ds)
  else if bool_decide (-6 < n ≤ 0)%Z then "0." ++ zeros (- n)%Z ++ digit_string ds
  else
    let exponent := (if bool_decide (0 ≤ n - 1)%Z then "+" else "-")
                    ++ pretty (Z.abs (n - 1)) in
    match ds with
    | [d] => pretty d ++ "e" ++ exponent
    | d :: rest => pretty d ++ "." ++ digit_string rest ++ "e" ++ exponent
    | [] => ""
    end.

Definition example_NumberToString (x : float) : string :=
  match Prim2SF x with
  | S754_zero _ => "0"
  | S754_nan => "NaN"
  | S754_infinity false => "Infinity"
  | S754_infinity true => "-Infinity"
  | S754_finite s m e => (if s then "-" else "") ++ NumberToString_finite m e
  end.

Definition service (answer : outcome AxiosResponse) : World :=
  {| remote := fun _ _ => answer; sent := []; console := [] |}.

Definition responds (d : value) : World := service (Fulfilled {| data := d |}).

Definition ragdoll : gmap string value :=
  list_to_map [
    ("name", JString "Ragdoll");
    ("child_friendly", JNumber 4);
    ("reference_image_id", JString "abc123") ].

(** A record whose trait score is outside the scale, and one whose image id
    cannot be turned into a string. *)
Definition overfriendly : gmap string value :=
  list_to_map [ ("name", JString "Ragdoll"); ("child_friendly", JNumber 9) ].

Definition unprintable : gmap string value :=
  list_to_map [
    ("name", JString "Ragdoll");
    ("reference_image_id", JObject {[ "toString" := JNumber 1 ]}) ].

(** The worlds of the examples: the service finds the Ragdoll, finds
    nothing, answers with [null] ahead of the Ragdoll, or cannot be reached. *)
Definition ragdoll_found : World := responds (JArray [JObject ragdoll]).
Definition nothing_found : World := responds (JArray []).
Definition null_first : World := responds (JArray [JNull; JObject ragdoll]).
Definition offline : World := service (Rejected (AxiosError "Network Error")).

(** A trait score: an integer from 0 to 5. *)
Definition is_score (v : value) : bool :=
  match v with
  | JNumber x =>
      existsb (PrimFloat.eqb x) [0; 1; 2; 3; 4; 5]%float
  | _ => false
  end.

(** [undefined] and [null], the two values a property read throws on, and
    the objects, which is what a record is at run time. *)
Definition nullish (v : value) : bool :=
  match v with
  | JUndefined | JNull => true
  | _ => false
  end.

Definition is_record (v : value) : bool :=
  match v with
  | JObject _ => true
  | _ => false
  end.

(** A well-typed record, and further worlds: the service answers with that
    record, with a page of text, with [null], with an image record, or finds
    the Ragdoll the first time it is asked and nothing afterwards. *)
Definition siamese : Breed.t :=
  {| Breed.weight := {| Breed.imperial := "8 - 15"; Breed.metric := "4 - 7" |};
     Breed.id := "siam";
     Breed.name := "Siamese";
     Breed.temperament := "Active, Agile, Clever";
     Breed.origin := "Thailand";
     Breed.country_code := "TH";
     Breed.description := "Talkative and opinionated.";
     Breed.life_span := "12 - 15";
     Breed.indoor := 0;
     Breed.alt_names := "Siam, Thai Cat";
     Breed.adaptability := 5;
     Breed.affection_level := 5;
     Breed.child_friendly := 4;
     Breed.dog_friendly := 5;
     Breed.energy_level := 5;
     Breed.grooming := 1;
     Breed.health_issues := 1;
     Breed.intelligence := 5;
     Breed.shedding_level := 2;
     Breed.social_needs := 5;
     Breed.stranger_friendly := 5;
     Breed.vocalisation := 5;
     Breed.experimental := 0;
     Breed.hairless := 0;
     Breed.natural := 0;
     Breed.rare := 0;
     Breed.supressed_tail := 0;
     Breed.short_legs := 0;
     Breed.wikipedia_url := "https://en.wikipedia.org/wiki/Siamese_(cat)";
     Breed.hypoallergenic := 1;
     Breed.reference_image_id := "ai6Jps4sx";
     Breed.image := {| Breed.url := "https://cdn2.thecatapi.com/images/ai6Jps4sx.jpg" |}
  |}.

(** A record with every field the accessors read, each with a value of its
    own, and the body that has it first and the overfriendly record second. *)
Definition bengal : gmap string value :=
  list_to_map [
    ("name", JString "Bengal");
    ("description", JString "Bengals are a lot of fun to live with.");
    ("temperament", JString "Alert, Agile, Energetic");
    ("life_span", JString "12 - 15");
    ("child_friendly", JNumber 4);
    ("intelligence", JNumber 5);
    ("affection_level", JNumber 3);
    ("reference_image_id", JString "O3btzLlsO") ].

Definition bengal_first : World :=
  responds (JArray [JObject bengal; JObject overfriendly]).
Definition euro_page : World := responds (JString "€uro").

Definition siamese_found : World :=
  responds (JArray (Breed.to_value <$> [siamese])).
Definition text_page : World := responds (JString "<html>").
Definition null_body : World := responds JNull.
Definition image_found : World :=
  responds (JArray [JObject {[ "url" := JString "https://cdn2.thecatapi.com/images/MTY.jpg" ]}]).
Definition forgetful : World :=
  {| remote := fun seen _ =>
       match seen with
       | [] => Fulfilled {| data := JArray [JObject ragdoll] |}
       | _ :: _ => Fulfilled {| data := JArray [] |}
       end;
     sent := [];
     console := [] |}.

(** ** The operations of [src/index.ts] *)

Section Kitty.

(** [./constants] is imported and not part of the sources at hand: its three
    strings are parameters. *)
Variables BASE_URL API_KEY CDN_URL : string.

(** [Number::toString] of the engine (ECMAScript 6.1.6.1.20), which a
    template literal applies to a number. *)
Variable NumberToString : float → string.

(** [ToString] (ECMAScript 7.1.17), applied by a template literal to each
    substitution.  An array is joined with commas, [undefined] and [null]
    elements giving nothing.  An object is ["[object Object]"] through the
    inherited [toString]; an own [toString] property is data, not a function,
    and then no conversion to a primitive exists and a [TypeError] is thrown. *)
Fixpoint ToString (v : value) : outcome string :=
  match v with
  | JUndefined => Fulfilled "undefined"
  | JNull => Fulfilled "null"
  | JBool true => Fulfilled "true"
  | JBool false => Fulfilled "false"
  | JNumber x => Fulfilled (NumberToString x)
  | JString s => Fulfilled s
  | JArray elems =>
      let element (x : value) : outcome string :=
        match x with
        | JUndefined | JNull => Fulfilled ""
        | _ => ToString x
        end in
      (fix join (l : list value) : outcome string :=
         match l with
         | [] => Fulfilled ""
         | x :: rest =>
             s ← element x;
             match rest with
             | [] => Fulfilled s
             | _ :: _ => t ← join rest; Fulfilled (s ++ "," ++ t)
             end
         end) elems
  | JObject props =>
      match props !! "toString" with
      | Some _ => Rejected TypeError
      | None => Fulfilled "[object Object]"
      end
  end.

(** The [headers] object every breed request is given. *)
Definition api_key_config : option AxiosRequestConfig :=
  Some {| headers := {[ "X-API-Key" := API_KEY ]} |}.

Definition randomImage : Js value :=
  catch_
    (then_ (axios_get (BASE_URL ++ "images/search") None)
       (fun res => pure (d0 ← index0 (data res); GetField d0 f_url)))
    (fun err => console_error err).

(** [limit] is [None] when the caller leaves the argument out. *)
Definition catBreeds (limit : option float) : Js value :=
  let limit := default 30%float limit in
  then_ (axios_get (BASE_URL ++ "breeds?limit=" ++ NumberToString limit) api_key_config)
    (fun res => mret (data res)).

(** [query] is [None] when the caller leaves the argument out. *)
Definition catBreed (query : option string) : Js value :=
  let query := default "" query in
  then_ (axios_get (BASE_URL ++ "breeds/search?q=" ++ query) api_key_config)
    (fun res =>
       c ← pure (index0 (data res));
       if ToBoolean c then pure (index0 (data res))
       else throw (Error "No such breed found!")).

Definition catBreedDescription (query : string) : Js value :=
  then_ (axios_get (BASE_URL ++ "breeds/search?q=" ++ query) api_key_config)
    (fun res =>
       c ← pure (index0 (data res));
       if ToBoolean c then pure (d0 ← index0 (data res); GetField d0 f_description)
       else throw (Error "No such breed found!")).

Definition catBreedImage (query : string) : Js value :=
  then_ (axios_get (BASE_URL ++ "breeds/search?q=" ++ query) api_key_config)
    (fun res =>
       c ← pure (index0 (data res));
       if ToBoolean c then
         pure (d0 ← index0 (data res);
               ref ← GetField d0 f_reference_image_id;
               s ← ToString ref;
               Fulfilled (JString (CDN_URL ++ s ++ ".jpg")))
       else throw (Error "No such breed found!")).

Definition catBreedChildFriendliness (query : string) : Js value :=
  then_ (axios_get (BASE_URL ++ "breeds/search?q=" ++ query) api_key_config)
    (fun res =>
       c ← pure (index0 (data res));
       if ToBoolean c then pure (d0 ← index0 (data res); GetField d0 f_child_friendly)
       else throw (Error "No such breed found!")).

Definition breedLifeSpan (query : string) : Js value :=
  then_ (axios_get (BASE_URL ++ "breeds/search?q=" ++ query) api_key_config)
    (fun res =>
       c ← pure (index0 (data res));
       if ToBoolean c then pure (d0 ← index0 (data res); GetField d0 f_life_span)
       else throw (Error "No such breed found!")).

Definition breedTemperament (query : string) : Js value :=
  then_ (axios_get (BASE_URL ++ "breeds/search?q=" ++ query) api_key_config)
    (fun res =>
       c ← pure (index0 (data res));
       if ToBoolean c then pure (d0 ← index0 (data res); GetField d0 f_temperament)
       else throw (Error "No such breed found!")).

Definition breedIntelligence (query : string) : Js value :=
  then_ (axios_get (BASE_URL ++ "breeds/search?q=" ++ query) api_key_config)
    (fun res =>
       c ← pure (index0 (data res));
       if ToBoolean c then pure (d0 ← index0 (data res); GetField d0 f_intelligence)
       else throw (Error "No such breed found!")).

Definition breedAffection (query : string) : Js value :=
  then_ (axios_get (BASE_URL ++ "breeds/search?q=" ++ query) api_key_config)
    (fun res =>
       c ← pure (index0 (data res));
       if ToBoolean c then pure (d0 ← index0 (data res); GetField d0 f_affection_level)
       else throw (Error "No such breed found!")).

(** ** Vocabulary for the statements *)

(** The request a breed lookup sends for a query, the listing request for a
    limit and the request of [randomImage]. *)
Definition search_request (query : string) : Request :=
  {| url := BASE_URL ++ "breeds/search?q=" ++ query; config := api_key_config |}.

Definition listing_request (limit : float) : Request :=
  {| url := BASE_URL ++ "breeds?limit=" ++ NumberToString limit;
     config := api_key_config |}.

Definition image_request : Request :=
  {| url := BASE_URL ++ "images/search"; config := None |}.

(** The world once a request has been sent. *)
Definition record_request (r : Request) (w : World) : World :=
  {| remote := remote w; sent := sent w ++ [r]; console := console w |}.

(** The test every lookup makes on the body: its first element if that is
    truthy, the fixed error otherwise. *)
Definition first_or_fail (d : value) : outcome value :=
  c ← index0 d;
  if ToBoolean c then Fulfilled c else Rejected (Error "No such breed found!").

(** What [catBreedImage] makes of the matched element. *)
Definition image_of (r : value) : outcome value :=
  ref ← GetField r f_reference_image_id;
  s ← ToString ref;
  Fulfilled (JString (CDN_URL ++ s ++ ".jpg")).

(** The six accessors that return one field, each with its field, and the
    eight lookups. *)
Definition field_accessors : list (field * (string → Js value)) :=
  [ (f_description, catBreedDescription);
    (f_child_friendly, catBreedChildFriendliness);
    (f_life_span, breedLifeSpan);
    (f_temperament, breedTemperament);
    (f_intelligence, breedIntelligence);
    (f_affection_level, breedAffection) ].

Definition trait_accessors : list (field * (string → Js value)) :=
  [ (f_child_friendly, catBreedChildFriendliness);
    (f_intelligence, breedIntelligence);
    (f_affection_level, breedAffection) ].

Definition breed_lookups : list (string → Js value) :=
  [ (fun query => catBreed (Some query));
    catBreedDescription;
    catBreedImage;
    catBreedChildFriendliness;
    breedLifeSpan;
    breedTemperament;
    breedIntelligence;
    breedAffection ].

(** The factored form of the design notes, search, take the first or fail,
    project: [catBreed] followed by a projection of what it returns. *)
Definition lookup_then (proj : value → outcome value) (query : string) : Js value :=
  r ← catBreed (Some query); pure (proj r).

(** A lookup with projection [proj], as one expression. *)
Definition lookup (proj : value → outcome value) (query : string) : Js value :=
  fun w =>
    (res ← remote w (sent w) (search_request query);
     r ← first_or_fail (data res);
     proj r,
     record_request (search_request query) w).

(** The specification's wording of the test, on the sequence the service
    returns: fail when it is empty, its first element otherwise. *)
Definition firstOrFail (records : list value) : outcome value :=
  match records with
  | [] => Rejected (Error "No such breed found!")
  | r :: _ => Fulfilled r
  end.

(** The [project(field)] of the specification in its own words, without the
    reads of the code: the property of that name of a record, [undefined]
    when the record has none or the value is no record. *)
Definition property_of (name : string) (r : value) : value :=
  match r with
  | JObject props => default JUndefined (props !! name)
  | _ => JUndefined
  end.

(** The image address of the specification: [CDN_URL], the record's
    [reference_image_id] as a template prints it, [".jpg"]. *)
Definition image_address (r : value) : outcome value :=
  s ← ToString (property_of "reference_image_id" r);
  Fulfilled (JString (CDN_URL ++ s ++ ".jpg")).

(** What it is for [accessor] to be search, take the first or fail, project
    the property [name]: run in [w] it is [catBreed] followed by that
    projection, it leaves the world as [catBreed] does, having sent the one
    search request, it rejects with [e] exactly when [catBreed] does, and
    when [catBreed] returns [r] it returns the property [name] of [r]. *)
Definition refines_catBreed (name : string) (accessor : string → Js value)
    (query : string) (w : World) : Prop :=
  accessor query w = lookup_then (fun r => Fulfilled (property_of name r)) query w
  ∧ after (accessor query) w = after (catBreed (Some query)) w
  ∧ sent (after (accessor query) w) = (sent w ++ [search_request query])%list
  ∧ (∀ e, result (accessor query) w = Rejected e ↔
          result (catBreed (Some query)) w = Rejected e)
  ∧ (∀ r, result (catBreed (Some query)) w = Fulfilled r →
          result (accessor query) w = Fulfilled (property_of name r)).

(** The joining of an array's elements that [ToString] does, on its own. *)
Definition element_string (x : value) : outcome string :=
  match x with
  | JUndefined | JNull => Fulfilled ""
  | _ => ToString x
  end.

Fixpoint join_elements (l : list value) : outcome string :=
  match l with
  | [] => Fulfilled ""
  | x :: rest =>
      s ← element_string x;
      match rest with
      | [] => Fulfilled s
      | _ :: _ => t ← join_elements rest; Fulfilled (s ++ "," ++ t)
      end
  end.

(** ** How each operation runs *)

Lemma then_axios_get {B : Type} (u : string) (c : option AxiosRequestConfig)
    (h : AxiosResponse → Js B) (w : World) :
  then_ (axios_get u c) h w =
  match remote w (sent w) {| url := u; config := c |} with
  | Fulfilled res => h res (record_request {| url := u; config := c |} w)
  | Rejected e => (Rejected e, record_request {| url := u; config := c |} w)
  end.
Proof. reflexivity. Qed.

Lemma truthy_GetField (r : value) (f : field) :
  ToBoolean r = true → GetField r f = Fulfilled (project f r).
Proof. by destruct r. Qed.

Ltac run_lookup :=
  intros; unfold lookup, search_request, first_or_fail;
  rewrite then_axios_get;
  unfold pure, throw, mbind, Js_bind, outcome_bind; cbn [from_option id];
  match goal with
  | |- context [remote ?w ?l ?r] => destruct (remote w l r) as [[?]|?]
  end; [|reflexivity];
  cbn [data];
  match goal with
  | |- context [index0 ?d] => destruct (index0 d) as [?|?]
  end; [|reflexivity];
  match goal with
  | |- context [ToBoolean ?c] => destruct (ToBoolean c)
  end; reflexivity.

Lemma catBreed_run (query : string) (w : World) :
  catBreed (Some query) w = lookup Fulfilled query w.
Proof. unfold catBreed. run_lookup. Qed.

Lemma catBreedDescription_run (query : string) (w : World) :
  catBreedDescription query w = lookup (fun r => GetField r f_description) query w.
Proof. unfold catBreedDescription. run_lookup. Qed.

Lemma catBreedImage_run (query : string) (w : World) :
  catBreedImage query w = lookup image_of query w.
Proof. unfold catBreedImage. run_lookup. Qed.

Lemma catBreedChildFriendliness_run (query : string) (w : World) :
  catBreedChildFriendliness query w =
  lookup (fun r => GetField r f_child_friendly) query w.
Proof. unfold catBreedChildFriendliness. run_lookup. Qed.

Lemma breedLifeSpan_run (query : string) (w : World) :
  breedLifeSpan query w = lookup (fun r => GetField r f_life_span) query w.
Proof. unfold breedLifeSpan. run_lookup. Qed.

Lemma breedTemperament_run (query : string) (w : World) :
  breedTemperament query w = lookup (fun r => GetField r f_temperament) query w.
Proof. unfold breedTemperament. run_lookup. Qed.

Lemma breedIntelligence_run (query : string) (w : World) :
  breedIntelligence query w = lookup (fun r => GetField r f_intelligence) query w.
Proof. unfold breedIntelligence. run_lookup. Qed.

Lemma breedAffection_run (query : string) (w : World) :
  breedAffection query w = lookup (fun r => GetField r f_affection_level) query w.
Proof. unfold breedAffection. run_lookup. Qed.

Lemma catBreed_default : catBreed None = catBreed (Some "").
Proof. reflexivity. Qed.

Lemma catBreeds_run (limit : option float) (w : World) :
  catBreeds limit w =
  (res ← remote w (sent w) (listing_request (default 30%float limit));
   Fulfilled (data res),
   record_request (listing_request (default 30%float limit)) w).
Proof.
  unfold catBreeds. rewrite then_axios_get. fold api_key_config.
  unfold listing_request, mbind, outcome_bind.
  by destruct (remote _ _ _).
Qed.

Lemma randomImage_run (w : World) :
  randomImage w =
  let w1 := record_request image_request w in
  match res ← remote w (sent w) image_request;
        d0 ← index0 (data res);
        GetField d0 f_url with
  | Fulfilled u => (Fulfilled u, w1)
  | Rejected e =>
      (Fulfilled JUndefined,
       {| remote := remote w1; sent := sent w1; console := console w1 ++ [e] |})
  end.
Proof.
  unfold randomImage, catch_. rewrite then_axios_get.
  unfold image_request, pure, mbind, outcome_bind.
  destruct (remote _ _ _) as [res|e]; [|reflexivity].
  destruct (index0 (data res)) as [d0|e]; [|reflexivity].
  by destruct (GetField d0 f_url).
Qed.

Lemma lookup_then_run (proj : value → outcome value) (query : string) (w : World) :
  lookup_then proj query w = lookup proj query w.
Proof.
  unfold lookup_then, mbind, Js_bind. rewrite catBreed_run.
  unfold lookup, pure, mbind, outcome_bind.
  destruct (remote _ _ _) as [res|e]; [|reflexivity].
  by destruct (first_or_fail (data res)).
Qed.

Lemma first_or_fail_truthy (d r : value) :
  first_or_fail d = Fulfilled r → ToBoolean r = true.
Proof.
  unfold first_or_fail, mbind, outcome_bind.
  destruct (index0 d) as [c|e]; [|discriminate].
  destruct (ToBoolean c) eqn:Hc; [|discriminate].
  by intros [= <-].
Qed.

Lemma first_or_fail_cons (v : value) (rest : list value) :
  first_or_fail (JArray (v :: rest)) =
  if ToBoolean v then Fulfilled v else Rejected (Error "No such breed found!").
Proof. reflexivity. Qed.

Lemma first_or_fail_nil :
  first_or_fail (JArray []) = Rejected (Error "No such breed found!").
Proof. reflexivity. Qed.

(** On a sequence that does not start with a falsy element, and so on every
    sequence of records, the test of the code is the test of the
    specification. *)
Lemma first_or_fail_firstOrFail (records : list value) :
  (∀ r, head records = Some r → ToBoolean r = true) →
  first_or_fail (JArray records) = firstOrFail records.
Proof.
  destruct records as [|r rest]; [reflexivity|].
  intros Hr. rewrite first_or_fail_cons. by rewrite (Hr r eq_refl).
Qed.

Create Rewrite HintDb kitty_run.
#[local] Hint Rewrite catBreed_run catBreedDescription_run catBreedImage_run
  catBreedChildFriendliness_run breedLifeSpan_run breedTemperament_run
  breedIntelligence_run breedAffection_run : kitty_run.

(** A lookup settles as the remote answer, the first-or-fail test and the
    projection say, and sends the search request and nothing else. *)
Lemma lookup_result (proj : value → outcome value) (query : string) (w : World)
    (d : value) :
  remote w (sent w) (search_request query) = Fulfilled {| data := d |} →
  result (lookup proj query) w = (r ← first_or_fail d; proj r).
Proof. unfold result, lookup. cbn [fst]. by intros ->. Qed.

Lemma lookup_rejected (proj : value → outcome value) (query : string) (w : World)
    (e : exn) :
  remote w (sent w) (search_request query) = Rejected e →
  result (lookup proj query) w = Rejected e.
Proof. unfold result, lookup. cbn [fst]. by intros ->. Qed.

Lemma lookup_after (proj : value → outcome value) (query : string) (w : World) :
  after (lookup proj query) w = record_request (search_request query) w.
Proof. reflexivity. Qed.

(** Every lookup rejects with the fixed error as soon as the first element of
    the body is not truthy, whatever its projection. *)
Lemma lookup_not_found (proj : value → outcome value) (query : string) (w : World)
    (d : value) :
  remote w (sent w) (search_request query) = Fulfilled {| data := d |} →
  first_or_fail d = Rejected (Error "No such breed found!") →
  result (lookup proj query) w = Rejected (Error "No such breed found!").
Proof. intros Hd Hf. by rewrite (lookup_result _ _ _ _ Hd), Hf. Qed.

Lemma lookup_found (proj : value → outcome value) (query : string) (w : World)
    (d r : value) :
  remote w (sent w) (search_request query) = Fulfilled {| data := d |} →
  first_or_fail d = Fulfilled r →
  result (lookup proj query) w = proj r.
Proof. intros Hd Hf. by rewrite (lookup_result _ _ _ _ Hd), Hf. Qed.

Ltac each_lookup :=
  unfold breed_lookups, field_accessors, trait_accessors;
  repeat apply List.Forall_cons; try apply List.Forall_nil;
  unfold result, after in *; autorewrite with kitty_run.

(** A text that is not empty has a first code unit, and one byte below 128
    is a code unit of its own. *)
Lemma first_code_unit_truthy (c : Ascii.ascii) (s : string) :
  ToBoolean (JString (first_code_unit (String c s))) = true.
Proof.
  unfold first_code_unit.
  destruct (_ <? 192)%N; [reflexivity|].
  destruct (_ <? 224)%N; [by destruct s|].
  destruct (_ <? 240)%N; by destruct s as [|? [|? ?]].
Qed.

Lemma first_code_unit_ascii (c : Ascii.ascii) (s : string) :
  (Ascii.N_of_ascii c < 128)%N → first_code_unit (String c s) = String c "".
Proof.
  intros Hc. unfold first_code_unit.
  destruct (N.ltb_spec (Ascii.N_of_ascii c) 192); [reflexivity | lia].
Qed.

Lemma first_or_fail_text (c : Ascii.ascii) (s : string) :
  first_or_fail (JString (String c s))
  = Fulfilled (JString (first_code_unit (String c s))).
Proof.
  unfold first_or_fail, index0, mbind, outcome_bind.
  by rewrite first_code_unit_truthy.
Qed.

Lemma truthy_image_of (r : value) :
  ToBoolean r = true → image_of r = image_address r.
Proof. by destruct r. Qed.

(** An accessor that runs as the lookup of field [f] refines [catBreed] with
    the property of that name. *)
Lemma lookup_refines (name : string) (f : field) (accessor : string → Js value)
    (query : string) (w : World) :
  field_name f = name →
  (∀ w', accessor query w' = lookup (fun r => GetField r f) query w') →
  refines_catBreed name accessor query w.
Proof.
  intros <- Hrun. unfold refines_catBreed, result, after.
  rewrite Hrun, lookup_then_run, catBreed_run.
  unfold lookup. cbn [fst snd]. unfold mbind, outcome_bind.
  destruct (remote _ _ _) as [res|e0]; [|by repeat split].
  destruct (first_or_fail (data res)) as [r|e0] eqn:Hr; [|by repeat split].
  rewrite (truthy_GetField r f (first_or_fail_truthy _ _ Hr)).
  repeat split; try done. by intros ? [= <-].
Qed.

(** ** The claims *)

(** C1.  When the body of the response is the empty sequence, each of the
    eight breed lookups rejects with [Error "No such breed found!"]; being
    rejected, it returns no value. *)
Theorem empty_response_not_found (query : string) (w : World) :
  remote w (sent w) (search_request query) = Fulfilled {| data := JArray [] |} →
  Forall (fun lookup_op =>
            result (lookup_op query) w = Rejected (Error "No such breed found!")
            ∧ ∀ v, result (lookup_op query) w ≠ Fulfilled v)
         breed_lookups.
Proof.
  intros Hd.
  assert (Hall : ∀ proj, result (lookup proj query) w
                         = Rejected (Error "No such breed found!")).
  { intros proj. exact (lookup_not_found proj _ _ _ Hd first_or_fail_nil). }
  each_lookup; (split; [apply Hall | intros v; rewrite Hall; discriminate]).
Qed.

(** C2.  When the body is a sequence whose first element is a record,
    [catBreed] returns that first element, each field accessor returns the
    property it reads of that element, [undefined] when the element has
    none, and [catBreedImage] returns what the template makes of its
    [reference_image_id]; the later elements play no part. *)
Theorem first_element_returned (query : string) (w : World)
    (first : gmap string value) (rest : list value) :
  remote w (sent w) (search_request query)
    = Fulfilled {| data := JArray (JObject first :: rest) |} →
  result (catBreed (Some query)) w = Fulfilled (JObject first)
  ∧ result (catBreedDescription query) w
    = Fulfilled (default JUndefined (first !! "description"))
  ∧ result (catBreedChildFriendliness query) w
    = Fulfilled (default JUndefined (first !! "child_friendly"))
  ∧ result (breedLifeSpan query) w
    = Fulfilled (default JUndefined (first !! "life_span"))
  ∧ result (breedTemperament query) w
    = Fulfilled (default JUndefined (first !! "temperament"))
  ∧ result (breedIntelligence query) w
    = Fulfilled (default JUndefined (first !! "intelligence"))
  ∧ result (breedAffection query) w
    = Fulfilled (default JUndefined (first !! "affection_level"))
  ∧ result (catBreedImage query) w
    = (s ← ToString (default JUndefined (first !! "reference_image_id"));
       Fulfilled (JString (CDN_URL ++ s ++ ".jpg"))).
Proof.
  intros Hd.
  assert (Hall : ∀ proj, (lookup proj query w).1 = proj (JObject first)).
  { intros proj. exact (lookup_found proj _ _ _ _ Hd (first_or_fail_cons _ _)). }
  unfold result. autorewrite with kitty_run. rewrite !Hall.
  repeat split.
Qed.

(** C3, as amended.  When the first element of the body is a record, each
    of the three trait accessors returns the property it reads of that record
    as the service sent it, whatever it is and [undefined] when the record
    has none, so what it returns is a score exactly when that property is
    one; when the body is the empty sequence each of them rejects with
    [Error "No such breed found!"] and returns nothing, a zero included. *)
Theorem trait_accessors_pass_through (query : string) (w : World) :
  (∀ (first : gmap string value) (rest : list value),
     remote w (sent w) (search_request query)
       = Fulfilled {| data := JArray (JObject first :: rest) |} →
     (result (catBreedChildFriendliness query) w
        = Fulfilled (default JUndefined (first !! "child_friendly"))
      ∧ result (breedIntelligence query) w
        = Fulfilled (default JUndefined (first !! "intelligence"))
      ∧ result (breedAffection query) w
        = Fulfilled (default JUndefined (first !! "affection_level")))
     ∧ ((∃ v, result (catBreedChildFriendliness query) w = Fulfilled v
              ∧ is_score v = true)
        ↔ ∃ v, first !! "child_friendly" = Some v ∧ is_score v = true)
     ∧ ((∃ v, result (breedIntelligence query) w = Fulfilled v ∧ is_score v = true)
        ↔ ∃ v, first !! "intelligence" = Some v ∧ is_score v = true)
     ∧ ((∃ v, result (breedAffection query) w = Fulfilled v ∧ is_score v = true)
        ↔ ∃ v, first !! "affection_level" = Some v ∧ is_score v = true))
  ∧ (remote w (sent w) (search_request query) = Fulfilled {| data := JArray [] |} →
     Forall (fun '(f, accessor) =>
               result (accessor query) w = Rejected (Error "No such breed found!")
               ∧ ∀ v, result (accessor query) w ≠ Fulfilled v)
            trait_accessors).
Proof.
  split.
  - intros first rest Hd.
    assert (Hall : ∀ proj, (lookup proj query w).1 = proj (JObject first)).
    { intros proj. exact (lookup_found proj _ _ _ _ Hd (first_or_fail_cons _ _)). }
    assert (Hscore : ∀ name,
      (∃ v, Fulfilled (default JUndefined (first !! name)) = Fulfilled v
            ∧ is_score v = true)
      ↔ ∃ v, first !! name = Some v ∧ is_score v = true).
    { intros name. split.
      - intros (v & [= <-] & Hv). destruct (first !! name) as [x|]; [|discriminate].
        by exists x.
      - intros (v & -> & Hv). by exists v. }
    unfold result. autorewrite with kitty_run. rewrite !Hall. cbn.
    repeat split; apply Hscore.
  - intros Hd.
    assert (Hall : ∀ proj, result (lookup proj query) w
                           = Rejected (Error "No such breed found!")).
    { intros proj. exact (lookup_not_found proj _ _ _ Hd first_or_fail_nil). }
    each_lookup; (split; [apply Hall | intros v; rewrite Hall; discriminate]).
Qed.

(** C4.  When the transport fails with [e], [catBreeds], [catBreed] and every
    accessor reject with [e] and write nothing, while [randomImage] writes
    [e] with [console.error] and is fulfilled with [undefined]. *)
Theorem transport_failure (e : exn) (limit : option float)
    (query : option string) (q : string) (w : World) :
  (∀ r, remote w (sent w) r = Rejected e) →
  (result (catBreeds limit) w = Rejected e
   ∧ console (after (catBreeds limit) w) = console w)
  ∧ (result (catBreed query) w = Rejected e
     ∧ console (after (catBreed query) w) = console w)
  ∧ Forall (fun lookup_op =>
              result (lookup_op q) w = Rejected e
              ∧ console (after (lookup_op q) w) = console w)
           breed_lookups
  ∧ (result randomImage w = Fulfilled JUndefined
     ∧ console (after randomImage w) = (console w ++ [e])%list).
Proof.
  intros Hdown.
  assert (Hall : ∀ proj s, result (lookup proj s) w = Rejected e
                           ∧ console (after (lookup proj s) w) = console w).
  { intros proj s. split; [|reflexivity]. apply lookup_rejected, Hdown. }
  split; [|split; [|split]].
  - unfold result, after. rewrite catBreeds_run. cbn [fst snd]. by rewrite Hdown.
  - destruct query as [s|]; [|rewrite catBreed_default];
      unfold result, after in *; rewrite catBreed_run; apply Hall.
  - each_lookup; apply Hall.
  - unfold result, after. rewrite randomImage_run. by rewrite Hdown.
Qed.

(** C5.  When the first element of the body is a record, [catBreedImage]
    returns [CDN_URL], the record's [reference_image_id] as the template
    prints it and [".jpg"] put together; so when that field is the string
    [ref], as the [Breed] interface has it, it returns [CDN_URL], [ref] and
    [".jpg"] put together. *)
Theorem catBreedImage_url (query : string) (w : World)
    (first : gmap string value) (rest : list value) :
  remote w (sent w) (search_request query)
    = Fulfilled {| data := JArray (JObject first :: rest) |} →
  result (catBreedImage query) w
    = (s ← ToString (project f_reference_image_id (JObject first));
       Fulfilled (JString (CDN_URL ++ s ++ ".jpg")))
  ∧ ∀ ref : string,
      first !! "reference_image_id" = Some (JString ref) →
      result (catBreedImage query) w = Fulfilled (JString (CDN_URL ++ ref ++ ".jpg")).
Proof.
  intros Hd.
  assert (Himg : result (catBreedImage query) w = image_of (JObject first)).
  { unfold result. rewrite catBreedImage_run.
    exact (lookup_found image_of _ _ _ _ Hd (first_or_fail_cons _ _)). }
  rewrite Himg. split; [reflexivity|].
  intros ref Href. unfold image_of. cbn. by rewrite Href.
Qed.

(** The same for a body of well-typed records. *)
Lemma catBreedImage_of_Breed (query : string) (w : World)
    (b : Breed.t) (rest : list Breed.t) :
  remote w (sent w) (search_request query)
    = Fulfilled {| data := JArray (Breed.to_value <$> b :: rest) |} →
  result (catBreedImage query) w
    = Fulfilled (JString (CDN_URL ++ Breed.reference_image_id b ++ ".jpg")).
Proof.
  intros Hd. unfold result. rewrite catBreedImage_run.
  rewrite fmap_cons in Hd.
  exact (lookup_found image_of _ _ _ _ Hd (first_or_fail_cons _ _)).
Qed.

(** C6.  Each of the six field accessors is search, take the first or fail,
    project: it is [catBreed] followed by the reading of its property, it
    leaves the world as [catBreed] does, having sent the same search request
    and nothing else, it rejects with [e] exactly when [catBreed] rejects
    with [e], and when [catBreed] returns [r] it returns that property of
    [r].  [catBreedImage] is [catBreed] followed by the building of the image
    address in the same way. *)
Theorem accessors_refine_catBreed (query : string) (w : World) :
  refines_catBreed "description" catBreedDescription query w
  ∧ refines_catBreed "child_friendly" catBreedChildFriendliness query w
  ∧ refines_catBreed "life_span" breedLifeSpan query w
  ∧ refines_catBreed "temperament" breedTemperament query w
  ∧ refines_catBreed "intelligence" breedIntelligence query w
  ∧ refines_catBreed "affection_level" breedAffection query w
  ∧ catBreedImage query w = lookup_then image_address query w
  ∧ after (catBreedImage query) w = after (catBreed (Some query)) w.
Proof.
  split; [|split; [|split; [|split; [|split; [|split; [|split]]]]]].
  - apply (lookup_refines _ f_description); [reflexivity|].
    intros w'. apply catBreedDescription_run.
  - apply (lookup_refines _ f_child_friendly); [reflexivity|].
    intros w'. apply catBreedChildFriendliness_run.
  - apply (lookup_refines _ f_life_span); [reflexivity|].
    intros w'. apply breedLifeSpan_run.
  - apply (lookup_refines _ f_temperament); [reflexivity|].
    intros w'. apply breedTemperament_run.
  - apply (lookup_refines _ f_intelligence); [reflexivity|].
    intros w'. apply breedIntelligence_run.
  - apply (lookup_refines _ f_affection_level); [reflexivity|].
    intros w'. apply breedAffection_run.
  - rewrite catBreedImage_run, lookup_then_run. unfold lookup.
    unfold mbind, outcome_bind.
    destruct (remote _ _ _) as [res|e0]; [|reflexivity].
    destruct (first_or_fail (data res)) as [r|e0] eqn:Hr; [|reflexivity].
    by rewrite (truthy_image_of r (first_or_fail_truthy _ _ Hr)).
  - unfold after. by rewrite catBreedImage_run, catBreed_run.
Qed.

(** C7.  [catBreeds] takes the limit as 30 when it is left out, sends one
    request, the listing request whose [limit] parameter is the limit as the
    template prints it, whatever the number, and returns the body of the
    response as it is. *)
Theorem catBreeds_passthrough (limit : option float) (w : World) :
  catBreeds None = catBreeds (Some 30%float)
  ∧ sent (after (catBreeds limit) w)
    = (sent w ++ [ {| url := BASE_URL ++ "breeds?limit="
                               ++ NumberToString (default 30%float limit);
                      config := api_key_config |} ])%list
  ∧ ∀ body : value,
      remote w (sent w) (listing_request (default 30%float limit))
        = Fulfilled {| data := body |} →
      result (catBreeds limit) w = Fulfilled body.
Proof.
  split; [reflexivity|]. unfold result, after. rewrite catBreeds_run.
  split; [reflexivity|]. intros body Hd. cbn [fst]. by rewrite Hd.
Qed.

(** C8.  [catBreeds], [catBreed] and every accessor send one request, and it
    carries the header [X-API-Key] with the value [API_KEY]; [randomImage]
    sends one request, without a configuration, so with no header at all. *)
Theorem api_key_header (limit : option float) (query : option string)
    (q : string) (w : World) :
  Forall (fun op : Js value =>
            ∃ r, sent (after op w) = (sent w ++ [r])%list
                 ∧ req_header r "X-API-Key" = Some API_KEY)
         (catBreeds limit :: catBreed query
            :: map (fun lookup_op => lookup_op q) breed_lookups)
  ∧ ∃ r, sent (after randomImage w) = (sent w ++ [r])%list
         ∧ config r = None
         ∧ ∀ name, req_header r name = None.
Proof.
  assert (Hkey : ∀ u, req_header {| url := u; config := api_key_config |} "X-API-Key"
                      = Some API_KEY).
  { intros u. unfold req_header, api_key_config. cbn.
    apply lookup_singleton_eq. }
  assert (Hall : ∀ proj s, ∃ r,
    sent (lookup proj s w).2 = (sent w ++ [r])%list
    ∧ req_header r "X-API-Key" = Some API_KEY).
  { intros proj s. exists (search_request s). split; [reflexivity | apply Hkey]. }
  split.
  - cbn [map]. apply List.Forall_cons; [|apply List.Forall_cons].
    + unfold after. rewrite catBreeds_run. eexists. split; [reflexivity | apply Hkey].
    + destruct query as [s|]; [|rewrite catBreed_default];
        unfold after; rewrite catBreed_run; apply Hall.
    + each_lookup; apply Hall.
  - exists image_request. unfold after. rewrite randomImage_run.
    split; [|by split].
    cbn zeta. by destruct (_ ≫= _).
Qed.

(** C9.  [randomImage] is never rejected.  It is fulfilled whatever the
    remote service does; when the transport fails with [e], and when the body
    is the empty sequence so that reading [url] off its first element throws
    a [TypeError], the error is written with [console.error] and the promise
    is fulfilled with [undefined]. *)
Theorem randomImage_never_rejects (w : World) :
  (∃ v, result randomImage w = Fulfilled v)
  ∧ (∀ e, remote w (sent w) image_request = Rejected e →
          result randomImage w = Fulfilled JUndefined
          ∧ console (after randomImage w) = (console w ++ [e])%list)
  ∧ (remote w (sent w) image_request = Fulfilled {| data := JArray [] |} →
     result randomImage w = Fulfilled JUndefined
     ∧ console (after randomImage w) = (console w ++ [TypeError])%list).
Proof.
  unfold result, after. rewrite randomImage_run. cbn zeta.
  split; [|split].
  - destruct (_ ≫= _); eauto.
  - by intros e ->.
  - by intros ->.
Qed.

(** C10.  The test for a match is the truthiness of the first element, not
    the emptiness of the sequence: [null], [undefined], [0] and [""] are
    falsy, and whenever the first element of the body is falsy each of the
    eight lookups rejects with [Error "No such breed found!"], whatever
    follows it in the sequence. *)
Theorem falsy_first_element_not_found (query : string) (w : World)
    (first : value) (rest : list value) :
  Forall (fun v => ToBoolean v = false)
         [JNull; JUndefined; JNumber 0; JString ""]
  ∧ (ToBoolean first = false →
     remote w (sent w) (search_request query)
       = Fulfilled {| data := JArray (first :: rest) |} →
     Forall (fun lookup_op =>
               result (lookup_op query) w = Rejected (Error "No such breed found!"))
            breed_lookups).
Proof.
  split; [by repeat constructor|].
  intros Hfalsy Hd.
  assert (Hall : ∀ proj, result (lookup proj query) w
                         = Rejected (Error "No such breed found!")).
  { intros proj. apply (lookup_not_found proj _ _ _ Hd).
    by rewrite first_or_fail_cons, Hfalsy. }
  each_lookup; apply Hall.
Qed.

(** ** Further properties of the operations *)

Lemma value_array_ind (P : value → Prop) :
  P JUndefined → P JNull → (∀ b, P (JBool b)) → (∀ x, P (JNumber x)) →
  (∀ s, P (JString s)) → (∀ props, P (JObject props)) →
  (∀ elems, Forall P elems → P (JArray elems)) →
  ∀ v, P v.
Proof.
  intros Hu Hn Hb Hx Hs Ho Ha. fix IH 1.
  intros [ | | b | x | s | elems | props];
    [exact Hu | exact Hn | apply Hb | apply Hx | apply Hs | | apply Ho].
  apply Ha. induction elems as [|v elems IHelems].
  - apply List.Forall_nil.
  - apply List.Forall_cons; [apply IH | apply IHelems].
Qed.

(** The only error a conversion to a string, a read of element 0 or a read
    of a field can throw is a [TypeError]. *)
Lemma ToString_array (elems : list value) :
  ToString (JArray elems) = join_elements elems.
Proof.
  induction elems as [|x rest IH]; [reflexivity|].
  change (ToString (JArray (x :: rest)))
    with (s ← element_string x;
          match rest with
          | [] => Fulfilled s
          | _ :: _ => t ← ToString (JArray rest); Fulfilled (s ++ "," ++ t)
          end).
  by rewrite IH.
Qed.

Lemma join_elements_rejected (elems : list value) :
  Forall (fun v => ∀ e, ToString v = Rejected e → e = TypeError) elems →
  ∀ e, join_elements elems = Rejected e → e = TypeError.
Proof.
  induction 1 as [|v rest Hv _ IH]; intros e; [discriminate|].
  cbn [join_elements]. unfold mbind, outcome_bind.
  destruct (element_string v) as [s|e0] eqn:Hs.
  - destruct rest as [|v' rest']; [discriminate|].
    destruct (join_elements (v' :: rest')) as [t|e1]; [discriminate|].
    intros [= <-]. by apply IH.
  - intros [= <-]. destruct v; try discriminate; by apply Hv.
Qed.

Lemma ToString_rejected (v : value) (e : exn) :
  ToString v = Rejected e → e = TypeError.
Proof.
  revert e. induction v as [ | | b | x | s | props | elems IH] using value_array_ind;
    intros e.
  - discriminate.
  - discriminate.
  - by destruct b.
  - discriminate.
  - discriminate.
  - cbn. destruct (props !! "toString"); [congruence | discriminate].
  - rewrite ToString_array. by apply join_elements_rejected.
Qed.

Lemma index0_rejected (d : value) (e : exn) :
  index0 d = Rejected e → e = TypeError ∧ nullish d = true.
Proof. destruct d as [ | | | |[|]| | ]; cbn; try discriminate; by intros [= <-]. Qed.

Lemma GetField_rejected (r : value) (f : field) (e : exn) :
  GetField r f = Rejected e → e = TypeError.
Proof. destruct r; cbn; try discriminate; by intros [= <-]. Qed.

Lemma image_of_rejected (r : value) (e : exn) :
  image_of r = Rejected e → e = TypeError.
Proof.
  unfold image_of, mbind, outcome_bind.
  destruct (GetField r f_reference_image_id) as [ref|e0] eqn:Href.
  - destruct (ToString ref) as [s|e1] eqn:Hs; [discriminate|].
    intros [= <-]. exact (ToString_rejected _ _ Hs).
  - intros [= <-]. exact (GetField_rejected _ _ _ Href).
Qed.

Lemma lookup_rejection (proj : value → outcome value) (query : string)
    (w : World) (e : exn) :
  (∀ r e', proj r = Rejected e' → e' = TypeError) →
  (lookup proj query w).1 = Rejected e →
  remote w (sent w) (search_request query) = Rejected e
  ∨ e = TypeError
  ∨ e = Error "No such breed found!".
Proof.
  intros Hproj. unfold lookup. cbn [fst]. unfold mbind, outcome_bind.
  destruct (remote _ _ _) as [res|e0]; [|intros [= <-]; by left].
  unfold first_or_fail, mbind, outcome_bind.
  destruct (index0 (data res)) as [c|e0] eqn:Hc.
  - destruct (ToBoolean c).
    + intros Hr. right. left. exact (Hproj _ _ Hr).
    + intros [= <-]. by right; right.
  - intros [= <-]. right. left. exact (proj1 (index0_rejected _ _ Hc)).
Qed.

Lemma randomImage_first (w : World) (v : value) (rest : list value) :
  remote w (sent w) image_request = Fulfilled {| data := JArray (v :: rest) |} →
  nullish v = false →
  randomImage w = (Fulfilled (project f_url v), record_request image_request w).
Proof.
  intros Hd Hv. rewrite randomImage_run, Hd. cbn.
  by destruct v.
Qed.

Lemma twice_run (op : Js value) (proj : value → outcome value) (query : string)
    (w : World) (r : value) :
  (∀ w', op w' = lookup proj query w') →
  result op w = Fulfilled r →
  (_ ← op; op) w = lookup proj query (record_request (search_request query) w).
Proof.
  intros Hop Hr. unfold result in Hr. rewrite Hop in Hr.
  unfold mbind at 1. unfold Js_bind. rewrite Hop.
  unfold lookup at 1. unfold lookup in Hr. cbn [fst] in Hr. rewrite Hr.
  apply Hop.
Qed.

Lemma twice_spec (op : Js value) (proj : value → outcome value) (query : string)
    (w : World) (r : value) :
  (∀ w', op w' = lookup proj query w') →
  result op w = Fulfilled r →
  sent (after (_ ← op; op) w)
  = (sent w ++ [search_request query; search_request query])%list
  ∧ result (_ ← op; op) w = result op (record_request (search_request query) w).
Proof.
  intros Hop Hr. unfold result, after.
  rewrite (twice_run _ _ _ _ _ Hop Hr), Hop. split; [|reflexivity].
  unfold lookup. cbn. by rewrite <- app_assoc.
Qed.

(** X1.  When the first element of the body is a record with a [url],
    [randomImage] returns that [url], whatever follows in the sequence, and
    writes nothing. *)
Theorem randomImage_returns_url (w : World) (first : gmap string value)
    (rest : list value) (u : value) :
  remote w (sent w) image_request
    = Fulfilled {| data := JArray (JObject first :: rest) |} →
  first !! "url" = Some u →
  result randomImage w = Fulfilled u
  ∧ console (after randomImage w) = console w.
Proof.
  intros Hd Hu. unfold result, after.
  rewrite (randomImage_first _ _ _ Hd eq_refl). cbn. by rewrite Hu.
Qed.

(** X2.  [randomImage] writes at most one error.  When it writes one, the
    error is the transport's or a [TypeError] and the result is [undefined];
    otherwise the console is as it was. *)
Theorem randomImage_console (w : World) :
  console (after randomImage w) = console w
  ∨ (result randomImage w = Fulfilled JUndefined
     ∧ ∃ e, console (after randomImage w) = (console w ++ [e])%list
            ∧ (remote w (sent w) image_request = Rejected e ∨ e = TypeError)).
Proof.
  unfold result, after. rewrite randomImage_run. cbn zeta.
  unfold mbind, outcome_bind.
  destruct (remote _ _ _) as [res|e]; [|right; split; [done|]; exists e; by split; [|left]].
  destruct (index0 (data res)) as [d0|e] eqn:Hd0.
  - destruct (GetField d0 f_url) as [u|e] eqn:Hu; [by left|].
    right. split; [done|]. exists e. split; [done|]. right.
    exact (GetField_rejected _ _ _ Hu).
  - right. split; [done|]. exists e. split; [done|]. right.
    exact (proj1 (index0_rejected _ _ Hd0)).
Qed.

(** X3.  When the first element of the body is neither [undefined] nor
    [null] and has no [url], a record without the field or a value that is no
    record, [randomImage] is fulfilled with [undefined] and writes nothing:
    an [undefined] result does not tell that an error was written. *)
Theorem randomImage_silent_undefined (w : World) (v : value) (rest : list value) :
  remote w (sent w) image_request = Fulfilled {| data := JArray (v :: rest) |} →
  nullish v = false →
  project f_url v = JUndefined →
  result randomImage w = Fulfilled JUndefined
  ∧ console (after randomImage w) = console w.
Proof.
  intros Hd Hv Hu. unfold result, after.
  rewrite (randomImage_first _ _ _ Hd Hv). cbn. by rewrite Hu.
Qed.

(** X4.  When the body is [null] or [undefined], reading its element 0
    throws: each of the eight lookups rejects with a [TypeError], not with
    [Error "No such breed found!"]. *)
Theorem nullish_body_type_error (query : string) (w : World) (d : value) :
  remote w (sent w) (search_request query) = Fulfilled {| data := d |} →
  nullish d = true →
  Forall (fun lookup_op => result (lookup_op query) w = Rejected TypeError)
         breed_lookups.
Proof.
  intros Hd Hnull.
  assert (Hall : ∀ proj, result (lookup proj query) w = Rejected TypeError).
  { intros proj. rewrite (lookup_result _ _ _ _ Hd). by destruct d. }
  each_lookup; apply Hall.
Qed.

(** X5.  A lookup is rejected in three ways only: with the error the
    transport rejected with, with a [TypeError], or with
    [Error "No such breed found!"]. *)
Theorem lookup_rejection_causes (query : string) (w : World) (e : exn) :
  Forall (fun lookup_op =>
            result (lookup_op query) w = Rejected e →
            remote w (sent w) (search_request query) = Rejected e
            ∨ e = TypeError
            ∨ e = Error "No such breed found!")
         breed_lookups.
Proof.
  each_lookup; apply lookup_rejection;
    first [ discriminate
          | exact image_of_rejected
          | intros r e'; apply GetField_rejected ].
Qed.

(** X6.  What [catBreed] returns is truthy and is element 0 of the body: it
    never returns [undefined], [null], [false], [0], [NaN] or [""]. *)
Theorem catBreed_returns_truthy (query : option string) (w : World) (r : value) :
  result (catBreed query) w = Fulfilled r →
  ToBoolean r = true
  ∧ ∃ d, remote w (sent w) (search_request (default "" query))
           = Fulfilled {| data := d |}
         ∧ index0 d = Fulfilled r.
Proof.
  assert (Hq : catBreed query = catBreed (Some (default "" query))) by by destruct query.
  rewrite Hq. unfold result. rewrite catBreed_run. unfold lookup. cbn [fst].
  unfold mbind, outcome_bind.
  destruct (remote _ _ _) as [[d]|e]; [|discriminate]. cbn [data].
  destruct (first_or_fail d) as [c|e] eqn:Hc; [|discriminate].
  intros [= <-]. split; [exact (first_or_fail_truthy _ _ Hc)|].
  exists d. split; [reflexivity|].
  unfold first_or_fail, mbind, outcome_bind in Hc.
  destruct (index0 d) as [c'|e]; [|discriminate].
  destruct (ToBoolean c'); [|discriminate]. congruence.
Qed.

(** X7.  Whatever [catBreedImage] returns is a string that starts with
    [CDN_URL] and ends with [".jpg"]. *)
Theorem catBreedImage_shape (query : string) (w : World) (v : value) :
  result (catBreedImage query) w = Fulfilled v →
  ∃ s, v = JString (CDN_URL ++ s ++ ".jpg").
Proof.
  unfold result. rewrite catBreedImage_run. unfold lookup. cbn [fst].
  unfold mbind, outcome_bind.
  destruct (remote _ _ _) as [res|e]; [|discriminate].
  destruct (first_or_fail (data res)) as [r|e]; [|discriminate].
  unfold image_of, mbind, outcome_bind.
  destruct (GetField r f_reference_image_id) as [ref|e]; [|discriminate].
  destruct (ToString ref) as [s|e]; [|discriminate].
  intros [= <-]. by exists s.
Qed.

(** X8.  When the first record of the body has no [reference_image_id],
    [catBreedImage] does not fail: it returns [CDN_URL] followed by
    ["undefined.jpg"]. *)
Theorem catBreedImage_missing_id (query : string) (w : World)
    (first : gmap string value) (rest : list value) :
  remote w (sent w) (search_request query)
    = Fulfilled {| data := JArray (JObject first :: rest) |} →
  first !! "reference_image_id" = None →
  result (catBreedImage query) w
  = Fulfilled (JString (CDN_URL ++ "undefined" ++ ".jpg")).
Proof.
  intros Hd Hnone. unfold result. rewrite catBreedImage_run.
  fold (result (lookup image_of query) w).
  rewrite (lookup_found image_of _ _ _ _ Hd (first_or_fail_cons _ _)).
  unfold image_of. cbn. by rewrite Hnone.
Qed.

(** X9.  When the first record of the body lacks the field an accessor
    reads, the accessor does not fail: it returns [undefined]. *)
Theorem missing_field_undefined (query : string) (w : World)
    (first : gmap string value) (rest : list value) :
  remote w (sent w) (search_request query)
    = Fulfilled {| data := JArray (JObject first :: rest) |} →
  Forall (fun '(f, accessor) =>
            first !! field_name f = None →
            result (accessor query) w = Fulfilled JUndefined)
         field_accessors.
Proof.
  intros Hd.
  assert (Hall : ∀ f, first !! field_name f = None →
                      result (lookup (fun r => GetField r f) query) w
                      = Fulfilled JUndefined).
  { intros f Hnone.
    rewrite (lookup_found (fun r => GetField r f) _ _ _ _ Hd (first_or_fail_cons _ _)).
    cbn. by rewrite Hnone. }
  each_lookup; apply Hall.
Qed.

(** X10.  [catBreeds] rejects with [e] exactly when the transport rejects the
    listing request with [e].  It has no test on the body: an empty sequence
    is returned as it is, where a lookup would throw. *)
Theorem catBreeds_rejects_as_transport (limit : option float) (w : World) (e : exn) :
  (result (catBreeds limit) w = Rejected e ↔
   remote w (sent w) (listing_request (default 30%float limit)) = Rejected e)
  ∧ (remote w (sent w) (listing_request (default 30%float limit))
       = Fulfilled {| data := JArray [] |} →
     result (catBreeds limit) w = Fulfilled (JArray [])).
Proof.
  unfold result. rewrite catBreeds_run. cbn [fst]. unfold mbind, outcome_bind.
  destruct (remote _ _ _) as [res|e0].
  - split; [by split|]. by intros [= ->].
  - split; [split; congruence | discriminate].
Qed.

(** X11.  When the body is a sequence of records of the [Breed] interface,
    [catBreed] returns the first one and each accessor returns the field of
    the interface it is named after, a string for the description, the life
    span and the temperament, a number for the three traits. *)
Theorem typed_response_accessors (query : string) (w : World)
    (b : Breed.t) (rest : list Breed.t) :
  remote w (sent w) (search_request query)
    = Fulfilled {| data := JArray (Breed.to_value <$> b :: rest) |} →
  result (catBreed (Some query)) w = Fulfilled (Breed.to_value b)
  ∧ result (catBreedDescription query) w = Fulfilled (JString (Breed.description b))
  ∧ result (catBreedChildFriendliness query) w
    = Fulfilled (JNumber (Breed.child_friendly b))
  ∧ result (breedLifeSpan query) w = Fulfilled (JString (Breed.life_span b))
  ∧ result (breedTemperament query) w = Fulfilled (JString (Breed.temperament b))
  ∧ result (breedIntelligence query) w = Fulfilled (JNumber (Breed.intelligence b))
  ∧ result (breedAffection query) w = Fulfilled (JNumber (Breed.affection_level b)).
Proof.
  intros Hd. rewrite fmap_cons in Hd.
  assert (Hall : ∀ proj, (lookup proj query w).1 = proj (Breed.to_value b)).
  { intros proj.
    exact (lookup_found proj _ _ _ _ Hd (first_or_fail_cons _ _)). }
  unfold result. autorewrite with kitty_run. rewrite !Hall.
  repeat split; vm_compute; reflexivity.
Qed.

(** X12.  [catBreeds], [catBreed] and the accessors never write to the
    console, whether the request is fulfilled or rejected and whatever the
    body is: the console after the call is the console before it. *)
Theorem breed_operations_never_log (limit : option float) (query : option string)
    (q : string) (w : World) :
  Forall (fun op : Js value => console (after op w) = console w)
         (catBreeds limit :: catBreed query
            :: map (fun lookup_op => lookup_op q) breed_lookups).
Proof.
  cbn [map]. apply List.Forall_cons; [|apply List.Forall_cons].
  - unfold after. by rewrite catBreeds_run.
  - destruct query as [s|]; [|rewrite catBreed_default];
      unfold after; by rewrite catBreed_run.
  - each_lookup; reflexivity.
Qed.

(** X13.  Nothing is cached.  A lookup run again after it has returned sends
    the same search request a second time, and the second result is the one
    the lookup gives in the world the first run left. *)
Theorem lookups_not_cached (query : string) (w : World) :
  Forall (fun lookup_op =>
            ∀ r, result (lookup_op query) w = Fulfilled r →
                 sent (after (_ ← lookup_op query; lookup_op query) w)
                 = (sent w ++ [search_request query; search_request query])%list
                 ∧ result (_ ← lookup_op query; lookup_op query) w
                   = result (lookup_op query)
                       (record_request (search_request query) w))
         breed_lookups.
Proof.
  unfold breed_lookups.
  repeat apply List.Forall_cons; try apply List.Forall_nil;
    cbn beta; intros r; eapply twice_spec; intros w';
    first [ apply catBreed_run | apply catBreedDescription_run
          | apply catBreedImage_run | apply catBreedChildFriendliness_run
          | apply breedLifeSpan_run | apply breedTemperament_run
          | apply breedIntelligence_run | apply breedAffection_run ].
Qed.

(** X14.  A lookup puts the query in the address as it is, after
    ["breeds/search?q="], neither trimmed nor folded nor escaped: for two
    different queries it sends two different requests.  What it sends is
    never what [catBreeds] or [randomImage] sends. *)
Theorem query_sent_as_it_is (q1 q2 : string) (limit : option float) (w : World) :
  Forall (fun lookup_op =>
            sent (after (lookup_op q1) w)
            = (sent w ++ [ {| url := BASE_URL ++ "breeds/search?q=" ++ q1;
                              config := api_key_config |} ])%list
            ∧ (q1 ≠ q2 →
               sent (after (lookup_op q1) w) ≠ sent (after (lookup_op q2) w))
            ∧ sent (after (lookup_op q1) w) ≠ sent (after (catBreeds limit) w)
            ∧ sent (after (lookup_op q1) w) ≠ sent (after randomImage w))
         breed_lookups.
Proof.
  assert (Himage : sent (after randomImage w) = (sent w ++ [image_request])%list).
  { unfold after. rewrite randomImage_run. cbn zeta. by destruct (_ ≫= _). }
  assert (Hlist : sent (after (catBreeds limit) w)
                  = (sent w ++ [listing_request (default 30%float limit)])%list).
  { unfold after. by rewrite catBreeds_run. }
  assert (Hall : ∀ proj,
    sent (lookup proj q1 w).2
    = (sent w ++ [ {| url := BASE_URL ++ "breeds/search?q=" ++ q1;
                      config := api_key_config |} ])%list
    ∧ (q1 ≠ q2 → sent (lookup proj q1 w).2 ≠ sent (lookup proj q2 w).2)
    ∧ sent (lookup proj q1 w).2 ≠ sent (after (catBreeds limit) w)
    ∧ sent (lookup proj q1 w).2 ≠ sent (after randomImage w)).
  { intros proj. rewrite Hlist, Himage. unfold lookup. cbn [snd].
    unfold record_request, search_request, listing_request, image_request.
    cbn [sent].
    split; [reflexivity|]. split; [|split].
    - intros Hne Heq. apply app_inv_head in Heq. injection Heq as Heq.
      apply (inj (String.append BASE_URL)) in Heq.
      by apply (inj (String.append "breeds/search?q=")) in Heq.
    - intros Heq. apply app_inv_head in Heq. injection Heq as Heq.
      apply (inj (String.append BASE_URL)) in Heq. discriminate.
    - intros Heq. apply app_inv_head in Heq. discriminate. }
  each_lookup; apply Hall.
Qed.

(** X15.  When the body is a text that is not empty, element 0 is its first
    code unit, which is truthy: [catBreed] returns that code unit, the first
    byte itself when it is below 128, the field accessors return [undefined]
    and [catBreedImage] returns [CDN_URL] followed by ["undefined.jpg"]; none
    of them fails. *)
Theorem text_body_lookup (query : string) (w : World) (c : Ascii.ascii) (s : string) :
  remote w (sent w) (search_request query)
    = Fulfilled {| data := JString (String c s) |} →
  result (catBreed (Some query)) w
    = Fulfilled (JString (first_code_unit (String c s)))
  ∧ ((Ascii.N_of_ascii c < 128)%N →
     result (catBreed (Some query)) w = Fulfilled (JString (String c "")))
  ∧ Forall (fun '(f, accessor) => result (accessor query) w = Fulfilled JUndefined)
           field_accessors
  ∧ result (catBreedImage query) w
    = Fulfilled (JString (CDN_URL ++ "undefined" ++ ".jpg")).
Proof.
  intros Hd.
  assert (Hall : ∀ proj, (lookup proj query w).1
                         = proj (JString (first_code_unit (String c s)))).
  { intros proj. exact (lookup_found proj _ _ _ _ Hd (first_or_fail_text _ _)). }
  split; [|split; [|split]].
  - unfold result. by rewrite catBreed_run, Hall.
  - intros Hc. unfold result. by rewrite catBreed_run, Hall, first_code_unit_ascii.
  - each_lookup; by rewrite Hall.
  - unfold result. by rewrite catBreedImage_run, Hall.
Qed.

(** X16.  When the body has no element 0, a number, a boolean or the empty
    text, each of the eight lookups rejects with
    [Error "No such breed found!"]. *)
Theorem scalar_body_not_found (query : string) (w : World) (d : value) :
  remote w (sent w) (search_request query) = Fulfilled {| data := d |} →
  match d with
  | JBool _ | JNumber _ | JString "" => True
  | _ => False
  end →
  Forall (fun lookup_op =>
            result (lookup_op query) w = Rejected (Error "No such breed found!"))
         breed_lookups.
Proof.
  intros Hd Hscalar.
  assert (Hall : ∀ proj, result (lookup proj query) w
                         = Rejected (Error "No such breed found!")).
  { intros proj. apply (lookup_not_found proj _ _ _ Hd).
    by destruct d as [ | | | |[|]| | ]. }
  each_lookup; apply Hall.
Qed.

(** X17.  On a body that is a sequence of records the test of the code is
    the test for emptiness: [catBreed] returns exactly when the sequence is
    not empty, and then returns its head. *)
Theorem record_sequence_found_iff_nonempty (query : string) (w : World)
    (records : list value) :
  remote w (sent w) (search_request query) = Fulfilled {| data := JArray records |} →
  Forall (fun r => is_record r = true) records →
  result (catBreed (Some query)) w = firstOrFail records
  ∧ ((∃ r, result (catBreed (Some query)) w = Fulfilled r) ↔ records ≠ []).
Proof.
  intros Hd Hrec.
  assert (Hres : result (catBreed (Some query)) w = firstOrFail records).
  { unfold result. rewrite catBreed_run.
    fold (result (lookup Fulfilled query) w).
    rewrite (lookup_result _ _ _ _ Hd), first_or_fail_firstOrFail.
    - by destruct (firstOrFail records).
    - intros r Hhead. destruct records as [|r' rest]; [discriminate|].
      injection Hhead as ->. apply List.Forall_inv in Hrec. by destruct r. }
  split; [exact Hres|]. rewrite Hres.
  destruct records; cbn; split; try done; [by intros [r ?] | eauto].
Qed.

End Kitty.

(** ** The operations at work

    The end-to-end example of the specification, on the example service. *)

Example ragdoll_catBreed :
  result (catBreed example_BASE_URL example_API_KEY (Some "ragd")) ragdoll_found
  = Fulfilled (JObject ragdoll).
Proof. reflexivity. Qed.

Example ragdoll_child_friendly :
  result (catBreedChildFriendliness example_BASE_URL example_API_KEY "ragd")
    ragdoll_found
  = Fulfilled (JNumber 4).
Proof. reflexivity. Qed.

Example ragdoll_image :
  result (catBreedImage example_BASE_URL example_API_KEY example_CDN_URL
            example_NumberToString "ragd") ragdoll_found
  = Fulfilled (JString "https://cdn2.thecatapi.com/images/abc123.jpg").
Proof. reflexivity. Qed.

Example ragdoll_request :
  sent (after (catBreed example_BASE_URL example_API_KEY (Some "ragd")) ragdoll_found)
  = [ {| url := "https://api.thecatapi.com/v1/breeds/search?q=ragd";
         config := Some {| headers := {[ "X-API-Key" := "k3y" ]} |} |} ].
Proof. reflexivity. Qed.

Example listing_request_default :
  url (listing_request example_BASE_URL example_API_KEY example_NumberToString 30)
  = "https://api.thecatapi.com/v1/breeds?limit=30".
Proof. reflexivity. Qed.

(** An image id that has no string form makes [catBreedImage] throw where
    [catBreed] returns. *)
Example unprintable_image :
  result (catBreed example_BASE_URL example_API_KEY (Some "ragd"))
    (responds (JArray [JObject unprintable]))
  = Fulfilled (JObject unprintable)
  ∧ result (catBreedImage example_BASE_URL example_API_KEY example_CDN_URL
              example_NumberToString "ragd")
      (responds (JArray [JObject unprintable]))
    = Rejected TypeError.
Proof. split; reflexivity. Qed.

(** C3 as stated fails: the service sends a record whose [child_friendly] is
    9, and [catBreedChildFriendliness] returns 9, which is no score. *)
Lemma trait_score_out_of_range :
  remote (responds (JArray [JObject overfriendly])) []
    (search_request example_BASE_URL example_API_KEY "ragd")
  = Fulfilled {| data := JArray [JObject overfriendly] |}
  ∧ result (catBreedChildFriendliness example_BASE_URL example_API_KEY "ragd")
      (responds (JArray [JObject overfriendly]))
    = Fulfilled (JNumber 9)
  ∧ is_score (JNumber 9) = false.
Proof. repeat split; reflexivity. Qed.

(** ** The claims on the example service *)

Lemma empty_response_not_found_witness :
  remote nothing_found (sent nothing_found)
    (search_request example_BASE_URL example_API_KEY "zzz")
  = Fulfilled {| data := JArray [] |}
  ∧ Forall (fun lookup_op =>
              result (lookup_op "zzz") nothing_found
              = Rejected (Error "No such breed found!")
              ∧ ∀ v, result (lookup_op "zzz") nothing_found ≠ Fulfilled v)
           (breed_lookups example_BASE_URL example_API_KEY example_CDN_URL
              example_NumberToString).
Proof.
  split; [reflexivity|].
  apply (empty_response_not_found example_BASE_URL example_API_KEY
           example_CDN_URL example_NumberToString "zzz" nothing_found).
  reflexivity.
Defined.

Lemma first_element_returned_witness :
  remote bengal_first (sent bengal_first)
    (search_request example_BASE_URL example_API_KEY "beng")
  = Fulfilled {| data := JArray [JObject bengal; JObject overfriendly] |}
  ∧ result (catBreed example_BASE_URL example_API_KEY (Some "beng")) bengal_first
    = Fulfilled (JObject bengal)
  ∧ result (catBreedDescription example_BASE_URL example_API_KEY "beng") bengal_first
    = Fulfilled (JString "Bengals are a lot of fun to live with.")
  ∧ result (catBreedChildFriendliness example_BASE_URL example_API_KEY "beng")
      bengal_first
    = Fulfilled (JNumber 4)
  ∧ result (breedLifeSpan example_BASE_URL example_API_KEY "beng") bengal_first
    = Fulfilled (JString "12 - 15")
  ∧ result (breedTemperament example_BASE_URL example_API_KEY "beng") bengal_first
    = Fulfilled (JString "Alert, Agile, Energetic")
  ∧ result (breedIntelligence example_BASE_URL example_API_KEY "beng") bengal_first
    = Fulfilled (JNumber 5)
  ∧ result (breedAffection example_BASE_URL example_API_KEY "beng") bengal_first
    = Fulfilled (JNumber 3)
  ∧ result (catBreedImage example_BASE_URL example_API_KEY example_CDN_URL
              example_NumberToString "beng") bengal_first
    = Fulfilled (JString "https://cdn2.thecatapi.com/images/O3btzLlsO.jpg").
Proof.
  split; [reflexivity|].
  exact (first_element_returned example_BASE_URL example_API_KEY
           example_CDN_URL example_NumberToString "beng" bengal_first
           bengal [JObject overfriendly] eq_refl).
Defined.

Lemma trait_accessors_pass_through_witness :
  remote bengal_first (sent bengal_first)
    (search_request example_BASE_URL example_API_KEY "beng")
  = Fulfilled {| data := JArray [JObject bengal; JObject overfriendly] |}
  ∧ result (catBreedChildFriendliness example_BASE_URL example_API_KEY "beng")
      bengal_first
    = Fulfilled (JNumber 4)
  ∧ result (breedIntelligence example_BASE_URL example_API_KEY "beng") bengal_first
    = Fulfilled (JNumber 5)
  ∧ result (breedAffection example_BASE_URL example_API_KEY "beng") bengal_first
    = Fulfilled (JNumber 3).
Proof.
  split; [reflexivity|].
  exact (proj1 (proj1 (trait_accessors_pass_through example_BASE_URL example_API_KEY
                         "beng" bengal_first)
                  bengal [JObject overfriendly] eq_refl)).
Defined.

Lemma transport_failure_witness :
  (∀ r, remote offline (sent offline) r = Rejected (AxiosError "Network Error"))
  ∧ result (catBreed example_BASE_URL example_API_KEY (Some "ragd")) offline
    = Rejected (AxiosError "Network Error")
  ∧ result (randomImage example_BASE_URL) offline = Fulfilled JUndefined
  ∧ console (after (randomImage example_BASE_URL) offline)
    = [AxiosError "Network Error"].
Proof.
  split; [reflexivity|].
  destruct (transport_failure example_BASE_URL example_API_KEY example_CDN_URL
              example_NumberToString (AxiosError "Network Error") (Some 5%float)
              (Some "ragd") "ragd" offline (fun r => eq_refl))
    as (_ & [Hbreed _] & _ & Himage & Hlog).
  split; [exact Hbreed|]. split; [exact Himage | exact Hlog].
Defined.

Lemma catBreedImage_url_witness :
  remote ragdoll_found (sent ragdoll_found)
    (search_request example_BASE_URL example_API_KEY "ragd")
  = Fulfilled {| data := JArray [JObject ragdoll] |}
  ∧ ragdoll !! "reference_image_id" = Some (JString "abc123")
  ∧ result (catBreedImage example_BASE_URL example_API_KEY example_CDN_URL
              example_NumberToString "ragd") ragdoll_found
    = Fulfilled (JString (example_CDN_URL ++ "abc123" ++ ".jpg")).
Proof.
  split; [reflexivity|]. split; [reflexivity|].
  apply (proj2 (catBreedImage_url example_BASE_URL example_API_KEY
                  example_CDN_URL example_NumberToString "ragd" ragdoll_found
                  ragdoll [] eq_refl) "abc123").
  reflexivity.
Defined.

Lemma accessors_refine_catBreed_witness :
  result (catBreed example_BASE_URL example_API_KEY (Some "beng")) bengal_first
  = Fulfilled (JObject bengal)
  ∧ result (catBreedDescription example_BASE_URL example_API_KEY "beng") bengal_first
    = Fulfilled (JString "Bengals are a lot of fun to live with.")
  ∧ result (catBreedChildFriendliness example_BASE_URL example_API_KEY "beng")
      bengal_first
    = Fulfilled (JNumber 4)
  ∧ result (breedLifeSpan example_BASE_URL example_API_KEY "beng") bengal_first
    = Fulfilled (JString "12 - 15")
  ∧ result (breedTemperament example_BASE_URL example_API_KEY "beng") bengal_first
    = Fulfilled (JString "Alert, Agile, Energetic")
  ∧ result (breedIntelligence example_BASE_URL example_API_KEY "beng") bengal_first
    = Fulfilled (JNumber 5)
  ∧ result (breedAffection example_BASE_URL example_API_KEY "beng") bengal_first
    = Fulfilled (JNumber 3).
Proof.
  split; [reflexivity|].
  destruct (accessors_refine_catBreed example_BASE_URL example_API_KEY
              example_CDN_URL example_NumberToString "beng" bengal_first)
    as ((_ & _ & _ & _ & Hdescription) & (_ & _ & _ & _ & Hchild)
        & (_ & _ & _ & _ & Hlife) & (_ & _ & _ & _ & Htemperament)
        & (_ & _ & _ & _ & Hintelligence) & (_ & _ & _ & _ & Haffection) & _).
  split; [exact (Hdescription (JObject bengal) eq_refl)|].
  split; [exact (Hchild (JObject bengal) eq_refl)|].
  split; [exact (Hlife (JObject bengal) eq_refl)|].
  split; [exact (Htemperament (JObject bengal) eq_refl)|].
  split; [exact (Hintelligence (JObject bengal) eq_refl)|].
  exact (Haffection (JObject bengal) eq_refl).
Defined.

Lemma catBreeds_passthrough_witness :
  remote ragdoll_found (sent ragdoll_found)
    (listing_request example_BASE_URL example_API_KEY example_NumberToString 5)
  = Fulfilled {| data := JArray [JObject ragdoll] |}
  ∧ result (catBreeds example_BASE_URL example_API_KEY example_NumberToString
              (Some 5%float)) ragdoll_found
    = Fulfilled (JArray [JObject ragdoll]).
Proof.
  split; [reflexivity|].
  apply (proj2 (proj2 (catBreeds_passthrough example_BASE_URL example_API_KEY
                         example_NumberToString (Some 5%float) ragdoll_found))).
  reflexivity.
Defined.

Lemma randomImage_never_rejects_witness :
  remote offline (sent offline) (image_request example_BASE_URL)
  = Rejected (AxiosError "Network Error")
  ∧ result (randomImage example_BASE_URL) offline = Fulfilled JUndefined
  ∧ console (after (randomImage example_BASE_URL) offline)
    = (console offline ++ [AxiosError "Network Error"])%list.
Proof.
  split; [reflexivity|].
  apply (proj1 (proj2 (randomImage_never_rejects example_BASE_URL offline))).
  reflexivity.
Defined.

Lemma falsy_first_element_not_found_witness :
  ToBoolean JNull = false
  ∧ remote null_first (sent null_first)
      (search_request example_BASE_URL example_API_KEY "ragd")
    = Fulfilled {| data := JArray [JNull; JObject ragdoll] |}
  ∧ Forall (fun lookup_op =>
              result (lookup_op "ragd") null_first
              = Rejected (Error "No such breed found!"))
           (breed_lookups example_BASE_URL example_API_KEY example_CDN_URL
              example_NumberToString).
Proof.
  split; [reflexivity|]. split; [reflexivity|].
  apply (proj2 (falsy_first_element_not_found example_BASE_URL example_API_KEY
                  example_CDN_URL example_NumberToString "ragd" null_first
                  JNull [JObject ragdoll])); reflexivity.
Defined.

(** ** The further properties on the example service *)

(** The service that forgets: the second run of the same lookup finds
    nothing, having asked again. *)
Example forgetful_second_run :
  result (catBreed example_BASE_URL example_API_KEY (Some "ragd")) forgetful
  = Fulfilled (JObject ragdoll)
  ∧ result (_ ← catBreed example_BASE_URL example_API_KEY (Some "ragd");
            catBreed example_BASE_URL example_API_KEY (Some "ragd")) forgetful
    = Rejected (Error "No such breed found!").
Proof. split; reflexivity. Qed.

Lemma randomImage_returns_url_witness :
  remote image_found (sent image_found) (image_request example_BASE_URL)
  = Fulfilled {| data := JArray
      [JObject {[ "url" := JString "https://cdn2.thecatapi.com/images/MTY.jpg" ]}] |}
  ∧ ({[ "url" := JString "https://cdn2.thecatapi.com/images/MTY.jpg" ]}
       : gmap string value) !! "url"
    = Some (JString "https://cdn2.thecatapi.com/images/MTY.jpg")
  ∧ result (randomImage example_BASE_URL) image_found
    = Fulfilled (JString "https://cdn2.thecatapi.com/images/MTY.jpg")
  ∧ console (after (randomImage example_BASE_URL) image_found) = console image_found.
Proof.
  split; [reflexivity|]. split; [reflexivity|].
  apply (randomImage_returns_url example_BASE_URL image_found
           {[ "url" := JString "https://cdn2.thecatapi.com/images/MTY.jpg" ]} []);
    reflexivity.
Defined.

Lemma randomImage_silent_undefined_witness :
  remote ragdoll_found (sent ragdoll_found) (image_request example_BASE_URL)
  = Fulfilled {| data := JArray [JObject ragdoll] |}
  ∧ nullish (JObject ragdoll) = false
  ∧ project f_url (JObject ragdoll) = JUndefined
  ∧ result (randomImage example_BASE_URL) ragdoll_found = Fulfilled JUndefined
  ∧ console (after (randomImage example_BASE_URL) ragdoll_found)
    = console ragdoll_found.
Proof.
  split; [reflexivity|]. split; [reflexivity|]. split; [reflexivity|].
  apply (randomImage_silent_undefined example_BASE_URL ragdoll_found
           (JObject ragdoll) []); reflexivity.
Defined.

Lemma nullish_body_type_error_witness :
  remote null_body (sent null_body)
    (search_request example_BASE_URL example_API_KEY "ragd")
  = Fulfilled {| data := JNull |}
  ∧ nullish JNull = true
  ∧ Forall (fun lookup_op => result (lookup_op "ragd") null_body = Rejected TypeError)
           (breed_lookups example_BASE_URL example_API_KEY example_CDN_URL
              example_NumberToString).
Proof.
  split; [reflexivity|]. split; [reflexivity|].
  apply (nullish_body_type_error example_BASE_URL example_API_KEY example_CDN_URL
           example_NumberToString "ragd" null_body JNull); reflexivity.
Defined.

Lemma lookup_rejection_causes_witness :
  result (catBreedDescription example_BASE_URL example_API_KEY "zzz") nothing_found
  = Rejected (Error "No such breed found!")
  ∧ (remote nothing_found (sent nothing_found)
       (search_request example_BASE_URL example_API_KEY "zzz")
     = Rejected (Error "No such breed found!")
     ∨ Error "No such breed found!" = TypeError
     ∨ Error "No such breed found!" = Error "No such breed found!").
Proof.
  split; [reflexivity|].
  apply (List.Forall_inv (List.Forall_inv_tail
           (lookup_rejection_causes example_BASE_URL example_API_KEY
              example_CDN_URL example_NumberToString "zzz" nothing_found
              (Error "No such breed found!")))).
  reflexivity.
Defined.

Lemma catBreed_returns_truthy_witness :
  result (catBreed example_BASE_URL example_API_KEY (Some "ragd")) ragdoll_found
  = Fulfilled (JObject ragdoll)
  ∧ ToBoolean (JObject ragdoll) = true
  ∧ ∃ d, remote ragdoll_found (sent ragdoll_found)
           (search_request example_BASE_URL example_API_KEY (default "" (Some "ragd")))
         = Fulfilled {| data := d |}
         ∧ index0 d = Fulfilled (JObject ragdoll).
Proof.
  split; [reflexivity|].
  apply (catBreed_returns_truthy example_BASE_URL example_API_KEY (Some "ragd")
           ragdoll_found (JObject ragdoll)).
  reflexivity.
Defined.

Lemma catBreedImage_shape_witness :
  result (catBreedImage example_BASE_URL example_API_KEY example_CDN_URL
            example_NumberToString "ragd") ragdoll_found
  = Fulfilled (JString "https://cdn2.thecatapi.com/images/abc123.jpg")
  ∧ ∃ s, JString "https://cdn2.thecatapi.com/images/abc123.jpg"
         = JString (example_CDN_URL ++ s ++ ".jpg").
Proof.
  split; [reflexivity|].
  apply (catBreedImage_shape example_BASE_URL example_API_KEY example_CDN_URL
           example_NumberToString "ragd" ragdoll_found).
  reflexivity.
Defined.

Lemma catBreedImage_missing_id_witness :
  remote (responds (JArray [JObject overfriendly]))
    (sent (responds (JArray [JObject overfriendly])))
    (search_request example_BASE_URL example_API_KEY "ragd")
  = Fulfilled {| data := JArray [JObject overfriendly] |}
  ∧ overfriendly !! "reference_image_id" = None
  ∧ result (catBreedImage example_BASE_URL example_API_KEY example_CDN_URL
              example_NumberToString "ragd")
      (responds (JArray [JObject overfriendly]))
    = Fulfilled (JString (example_CDN_URL ++ "undefined" ++ ".jpg")).
Proof.
  split; [reflexivity|]. split; [reflexivity|].
  apply (catBreedImage_missing_id example_BASE_URL example_API_KEY example_CDN_URL
           example_NumberToString "ragd" (responds (JArray [JObject overfriendly]))
           overfriendly []); reflexivity.
Defined.

Lemma missing_field_undefined_witness :
  remote ragdoll_found (sent ragdoll_found)
    (search_request example_BASE_URL example_API_KEY "ragd")
  = Fulfilled {| data := JArray [JObject ragdoll] |}
  ∧ ragdoll !! field_name f_description = None
  ∧ result (catBreedDescription example_BASE_URL example_API_KEY "ragd") ragdoll_found
    = Fulfilled JUndefined.
Proof.
  split; [reflexivity|]. split; [reflexivity|].
  apply (List.Forall_inv
           (missing_field_undefined example_BASE_URL example_API_KEY "ragd"
              ragdoll_found ragdoll [] eq_refl)).
  reflexivity.
Defined.

Lemma catBreeds_rejects_as_transport_witness :
  remote offline (sent offline)
    (listing_request example_BASE_URL example_API_KEY example_NumberToString
       (default 30%float None))
  = Rejected (AxiosError "Network Error")
  ∧ result (catBreeds example_BASE_URL example_API_KEY example_NumberToString None)
      offline
    = Rejected (AxiosError "Network Error").
Proof.
  split; [reflexivity|].
  apply (proj1 (catBreeds_rejects_as_transport example_BASE_URL example_API_KEY
                  example_NumberToString None offline (AxiosError "Network Error"))).
  reflexivity.
Defined.

Lemma typed_response_accessors_witness :
  remote siamese_found (sent siamese_found)
    (search_request example_BASE_URL example_API_KEY "siam")
  = Fulfilled {| data := JArray (Breed.to_value <$> [siamese]) |}
  ∧ result (catBreedDescription example_BASE_URL example_API_KEY "siam") siamese_found
    = Fulfilled (JString "Talkative and opinionated.")
  ∧ result (breedAffection example_BASE_URL example_API_KEY "siam") siamese_found
    = Fulfilled (JNumber 5).
Proof.
  split; [reflexivity|].
  destruct (typed_response_accessors example_BASE_URL example_API_KEY "siam"
              siamese_found siamese [] eq_refl)
    as (_ & Hdescription & _ & _ & _ & _ & Haffection).
  split; [exact Hdescription | exact Haffection].
Defined.

Lemma lookups_not_cached_witness :
  result (catBreed example_BASE_URL example_API_KEY (Some "ragd")) forgetful
  = Fulfilled (JObject ragdoll)
  ∧ sent (after (_ ← catBreed example_BASE_URL example_API_KEY (Some "ragd");
                 catBreed example_BASE_URL example_API_KEY (Some "ragd")) forgetful)
    = (sent forgetful
       ++ [search_request example_BASE_URL example_API_KEY "ragd";
           search_request example_BASE_URL example_API_KEY "ragd"])%list.
Proof.
  split; [reflexivity|].
  apply (List.Forall_inv
           (lookups_not_cached example_BASE_URL example_API_KEY example_CDN_URL
              example_NumberToString "ragd" forgetful) (JObject ragdoll)).
  reflexivity.
Defined.

(** A query with a space and an ampersand goes into the address unescaped. *)
Example query_unescaped :
  sent (after (catBreed example_BASE_URL example_API_KEY (Some "maine coon&limit=1"))
          ragdoll_found)
  = [ {| url := "https://api.thecatapi.com/v1/breeds/search?q=maine coon&limit=1";
         config := Some {| headers := {[ "X-API-Key" := "k3y" ]} |} |} ].
Proof. reflexivity. Qed.

Lemma query_sent_as_it_is_witness :
  "ragd" ≠ "Ragd"
  ∧ sent (after (catBreed example_BASE_URL example_API_KEY (Some "ragd")) ragdoll_found)
    ≠ sent (after (catBreed example_BASE_URL example_API_KEY (Some "Ragd"))
              ragdoll_found).
Proof.
  assert (Hne : "ragd" ≠ "Ragd") by discriminate.
  split; [exact Hne|].
  exact (proj1 (proj2 (List.Forall_inv
           (query_sent_as_it_is example_BASE_URL example_API_KEY example_CDN_URL
              example_NumberToString "ragd" "Ragd" None ragdoll_found))) Hne).
Defined.

Lemma text_body_lookup_witness :
  remote euro_page (sent euro_page)
    (search_request example_BASE_URL example_API_KEY "ragd")
  = Fulfilled {| data := JString "€uro" |}
  ∧ result (catBreed example_BASE_URL example_API_KEY (Some "ragd")) euro_page
    = Fulfilled (JString "€")
  ∧ result (catBreedImage example_BASE_URL example_API_KEY example_CDN_URL
              example_NumberToString "ragd") euro_page
    = Fulfilled (JString (example_CDN_URL ++ "undefined" ++ ".jpg")).
Proof.
  split; [reflexivity|].
  destruct (text_body_lookup example_BASE_URL example_API_KEY example_CDN_URL
              example_NumberToString "ragd" euro_page _ _ eq_refl)
    as (Hfirst & _ & _ & Himage).
  split; [exact Hfirst | exact Himage].
Defined.

(** The first code unit of a text: a character of one byte, of three bytes,
    and the high surrogate of a character outside the basic plane. *)
Example first_code_unit_examples :
  first_code_unit "<html>" = "<"
  ∧ first_code_unit "€uro" = "€"
  ∧ first_code_unit "😀!" = String (Ascii.ascii_of_N 237)
      (String (Ascii.ascii_of_N 160) (String (Ascii.ascii_of_N 189) "")).
Proof. repeat split; reflexivity. Qed.

(** The number printer on numbers of each form the engine prints. *)
Example NumberToString_examples :
  map example_NumberToString
    [30; 0.5; 1.5; -7; 9007199254740994; 1152921504606846976; 1e21;
     0.000001; 1e-7; 0.1; 0.30000000000000004; 5e-324]%float
  = ["30"; "0.5"; "1.5"; "-7"; "9007199254740994"; "1152921504606847000"; "1e+21";
     "0.000001"; "1e-7"; "0.1"; "0.30000000000000004"; "5e-324"].
Proof. vm_compute. reflexivity. Qed.

Lemma scalar_body_not_found_witness :
  remote (responds (JString "")) (sent (responds (JString "")))
    (search_request example_BASE_URL example_API_KEY "ragd")
  = Fulfilled {| data := JString "" |}
  ∧ Forall (fun lookup_op =>
              result (lookup_op "ragd") (responds (JString ""))
              = Rejected (Error "No such breed found!"))
           (breed_lookups example_BASE_URL example_API_KEY example_CDN_URL
              example_NumberToString).
Proof.
  split; [reflexivity|].
  apply (scalar_body_not_found example_BASE_URL example_API_KEY example_CDN_URL
           example_NumberToString "ragd" (responds (JString "")) (JString "")
           eq_refl I).
Defined.

Lemma record_sequence_found_iff_nonempty_witness :
  remote ragdoll_found (sent ragdoll_found)
    (search_request example_BASE_URL example_API_KEY "ragd")
  = Fulfilled {| data := JArray [JObject ragdoll] |}
  ∧ Forall (fun r => is_record r = true) [JObject ragdoll]
  ∧ result (catBreed example_BASE_URL example_API_KEY (Some "ragd")) ragdoll_found
    = firstOrFail [JObject ragdoll].
Proof.
  split; [reflexivity|].
  split; [apply List.Forall_cons; [reflexivity | apply List.Forall_nil]|].
  apply (record_sequence_found_iff_nonempty example_BASE_URL example_API_KEY "ragd"
           ragdoll_found [JObject ragdoll] eq_refl).
  apply List.Forall_cons; [reflexivity | apply List.Forall_nil].
Defined.
